(** * Tool-augmented generation: registry, retrieval tool and orchestrator

    A shallow embedding of [backend/search_tools.py] and
    [backend/ai_generator.py].

    - Tool instances live in a heap indexed by object identity; the
      registry holds references, so that a tool changed through one
      reference is seen changed through every other.
    - A method is a function on the attributes of its receiver and on the
      state of the random generator; an exception is a value of [outcome],
      and the state a call leaves behind is kept also when it raises.
    - The hosted model and the vector store are collaborators from outside
      the two files: the first is a function from the request to a response
      or an exception, the second a pair of functions.
    - Strings are byte strings; a keyword dictionary is a finite map; the
      registry's dict keeps insertion order and is an association list. *)

From Stdlib Require Import Ascii.
From stdpp Require Import gmap strings list pretty.

(** ** Python values, strings and exceptions *)
Module Py.

Definition dquote : string := String "034"%char EmptyString.
Definition nl : string := String "010"%char EmptyString.

(** Values that travel as keyword arguments of a tool call. *)
Inductive pyval :=
  | PNone
  | PStr (s : string)
  | PInt (z : Z).

Definition str_truthy (s : string) : bool := negb (String.eqb s EmptyString).

(** [bool(v)] *)
Definition truthy (v : pyval) : bool :=
  match v with
  | PNone => false
  | PStr s => str_truthy s
  | PInt z => negb (Z.eqb z 0)
  end.

Definition is_none (v : pyval) : bool :=
  match v with PNone => true | _ => false end.

(** [str(v)], as an f-string renders it *)
Definition py_str (v : pyval) : string :=
  match v with
  | PNone => "None"
  | PStr s => s
  | PInt z => pretty z
  end.

(** Truthiness of an [Optional[str]]. *)
Definition opt_truthy (o : option string) : bool :=
  match o with Some s => str_truthy s | None => false end.

Definition lower_ascii (c : ascii) : ascii :=
  let n := nat_of_ascii c in
  if (65 <=? n)%nat && (n <=? 90)%nat then ascii_of_nat (n + 32) else c.

(** [s.lower()] on byte strings *)
Fixpoint lower (s : string) : string :=
  match s with
  | EmptyString => EmptyString
  | String c rest => String (lower_ascii c) (lower rest)
  end.

(** [needle in hay] *)
Fixpoint contains (needle hay : string) : bool :=
  String.prefix needle hay ||
  match hay with
  | EmptyString => false
  | String _ rest => contains needle rest
  end.

(** [any(keyword in text for keyword in keywords)] *)
Definition any_in (keywords : list string) (text : string) : bool :=
  existsb (fun keyword => contains keyword text) keywords.

(** Number of positions of [hay] at which [needle] starts. *)
Fixpoint occurrences (needle hay : string) : nat :=
  (if String.prefix needle hay then 1 else 0) +
  match hay with
  | EmptyString => 0
  | String _ rest => occurrences needle rest
  end.

Inductive exn :=
  | TypeError
  | ValueError (msg : string)
  | IndexError
  | AttributeError
  | KeyError
  | Exception (cls msg : string).

Inductive outcome (A : Type) :=
  | Ret (a : A)
  | Raise (e : exn).
Arguments Ret {A} a.
Arguments Raise {A} e.


(** JSON-like values of a tool declaration. *)
#[warnings="-register-all"]
Inductive jval :=
  | JNull
  | JStr (s : string)
  | JInt (z : Z)
  | JArr (items : list jval)
  | JObj (members : list (string * jval)).

Definition jtruthy (v : jval) : bool :=
  match v with
  | JNull => false
  | JStr s => str_truthy s
  | JInt z => negb (Z.eqb z 0)
  | JArr items => match items with [] => false | _ => true end
  | JObj members => match members with [] => false | _ => true end
  end.

(** Lists and dicts cannot be dictionary keys. *)
Definition hashable (v : jval) : bool :=
  match v with
  | JArr _ | JObj _ => false
  | _ => true
  end.

(** Equality of dictionary keys (hashable values). *)
Definition key_eqb (a b : jval) : bool :=
  match a, b with
  | JNull, JNull => true
  | JStr s, JStr t => String.eqb s t
  | JInt x, JInt y => Z.eqb x y
  | _, _ => false
  end.

(** [d.get(k)] on a dict literal with string keys *)
Fixpoint dict_get (k : string) (d : list (string * jval)) : jval :=
  match d with
  | [] => JNull
  | (k', v) :: rest => if String.eqb k k' then v else dict_get k rest
  end.

(** An insertion-ordered dict: [d.get(k)], [d[k] = v], [d.values()]. *)
Section OrderedDict.
Context {V : Type}.

Fixpoint odict_get (k : jval) (d : list (jval * V)) : option V :=
  match d with
  | [] => None
  | (k', v) :: rest => if key_eqb k k' then Some v else odict_get k rest
  end.

Fixpoint odict_set (k : jval) (v : V) (d : list (jval * V)) : list (jval * V) :=
  match d with
  | [] => [(k, v)]
  | (k', v') :: rest =>
      if key_eqb k k' then (k', v) :: rest else (k', v') :: odict_set k v rest
  end.

Definition odict_values (d : list (jval * V)) : list V := map snd d.
End OrderedDict.

(** The generator behind [random]: the draws still to come. *)
Definition rng := list nat.

(** [random.sample(population, k)] for [k <= len(population)] *)
Fixpoint random_sample {A} (k : nat) (population : list A) (r : rng) : list A * rng :=
  match k with
  | O => ([], r)
  | S k' =>
      let i := (hd 0%nat r mod length population)%nat in
      match population !! i with
      | None => ([], r)
      | Some x =>
          let '(rest, r') := random_sample k' (delete i population) (tl r) in
          (x :: rest, r')
      end
  end.

End Py.

(** ** The retrieval collaborator ([vector_store], an external interface) *)
Module VectorStore.
Import Py.

(** Metadata of one hit; [None] stands for an absent key. *)
Record meta := {
  course_title : option string;
  lesson_number : option Z;
}.

Record SearchResults := {
  documents : list string;
  metadata : list meta;
  error : option string;
}.

(** Modelled from the spec: [SearchResults.is_empty] is declared in
    [vector_store.py], which is not among the sources; the result set is
    empty when it carries no document. *)
Definition is_empty (results : SearchResults) : bool :=
  match documents results with [] => true | _ => false end.

Record VectorStore := {
  search : pyval -> pyval -> pyval -> SearchResults;
  get_lesson_link : string -> Z -> option string;
}.

End VectorStore.

(** ** [search_tools.py] *)
Module SearchTools.
Import Py VectorStore.

(** A SourceRecord: [{"text": ..., "url": ...}] *)
Record source := {
  text : string;
  url : option string;
}.

(** Instance attributes that the registry probes with [hasattr];
    [None] stands for an attribute the instance does not have. *)
Record tool_fields := {
  last_sources : option (list source);
  mock_sources : option (list string);
}.

(** A method body: keyword arguments, then the receiver's attributes and
    the random generator before the call; the outcome comes with both as
    the call leaves them. *)
Definition method : Type :=
  gmap string pyval -> tool_fields * rng -> outcome string * (tool_fields * rng).

(** class Tool(ABC), together with the optional [execute_mock] *)
Record Tool := {
  get_tool_definition : list (string * jval);
  execute : method;
  execute_mock : option method;
  fields : tool_fields;
}.

Definition set_fields (t : Tool) (f : tool_fields) : Tool :=
  {| get_tool_definition := get_tool_definition t;
     execute := execute t;
     execute_mock := execute_mock t;
     fields := f |}.

Definition set_last_sources (f : tool_fields) (sources : list source) : tool_fields :=
  {| last_sources := Some sources; mock_sources := mock_sources f |}.

(** *** class CourseSearchTool *)

Definition course_search_definition : list (string * jval) :=
  [ ("name", JStr "search_course_content");
    ("description", JStr "Search course materials with smart course name matching and lesson filtering");
    ("input_schema", JObj
      [ ("type", JStr "object");
        ("properties", JObj
          [ ("query", JObj
              [ ("type", JStr "string");
                ("description", JStr "What to search for in the course content") ]);
            ("course_name", JObj
              [ ("type", JStr "string");
                ("description", JStr "Course title (partial matches work, e.g. 'MCP', 'Introduction')") ]);
            ("lesson_number", JObj
              [ ("type", JStr "integer");
                ("description", JStr "Specific lesson number to search within (e.g. 1, 2, 3)") ]) ]);
        ("required", JArr [JStr "query"]) ]) ].

(** Binding of [**kwargs] to [(query, course_name=None, lesson_number=None)]:
    a keyword outside the signature, or no [query], is a TypeError. *)
Definition search_signature : gset string :=
  {[ "query"; "course_name"; "lesson_number" ]}.

Definition bind_search_args (kwargs : gmap string pyval) : outcome (pyval * pyval * pyval) :=
  if bool_decide (dom kwargs ⊆ search_signature) then
    match kwargs !! "query" with
    | None => Raise TypeError
    | Some query =>
        Ret (query, default PNone (kwargs !! "course_name"),
                    default PNone (kwargs !! "lesson_number"))
    end
  else Raise TypeError.

(** One iteration of the loop of [_format_results]: the formatted block
    and the source of a hit. *)
Definition format_hit (store : VectorStore) (hit : string * meta) : string * source :=
  let '(doc, meta) := hit in
  let course_title := default "unknown" (course_title meta) in
  let lesson_num := lesson_number meta in
  let header := "[" +:+ course_title in
  let header :=
    match lesson_num with
    | Some n => header +:+ " - Lesson " +:+ pretty n
    | None => header
    end in
  let header := header +:+ "]" in
  let source_text := course_title in
  let source_text :=
    match lesson_num with
    | Some n => source_text +:+ " - Lesson " +:+ pretty n
    | None => source_text
    end in
  let source_url :=
    match lesson_num with
    | Some n =>
        if negb (String.eqb course_title "unknown") then
          let lesson_link := get_lesson_link store course_title n in
          if opt_truthy lesson_link then lesson_link else None
        else None
    | None => None
    end in
  (header +:+ nl +:+ doc, {| text := source_text; url := source_url |}).

Definition _format_results (store : VectorStore) (results : SearchResults)
    (self : tool_fields) : string * tool_fields :=
  let hits := map (format_hit store) (zip (documents results) (metadata results)) in
  let formatted := map fst hits in
  let sources := map snd hits in
  (String.concat (nl +:+ nl) formatted, set_last_sources self sources).

Definition CourseSearchTool_execute (store : VectorStore) : method :=
  fun kwargs '(self, r) =>
    match bind_search_args kwargs with
    | Raise e => (Raise e, (self, r))
    | Ret (query, course_name, lesson_number) =>
        let results := search store query course_name lesson_number in
        if opt_truthy (error results) then
          (Ret (default EmptyString (error results)), (self, r))
        else if is_empty results then
          let filter_info := EmptyString in
          let filter_info :=
            if truthy course_name
            then filter_info +:+ " in course '" +:+ py_str course_name +:+ "'"
            else filter_info in
          let filter_info :=
            if truthy lesson_number
            then filter_info +:+ " in lesson " +:+ py_str lesson_number
            else filter_info in
          (Ret ("No relevant content found" +:+ filter_info +:+ "."), (self, r))
        else
          let '(out, self') := _format_results store results self in
          (Ret out, (self', r))
    end.

Definition mock_sources_data : list source :=
  [ {| text := "MCP Course - Lesson 1: Introduction"; url := Some "https://example.com/mcp-lesson-1" |};
    {| text := "MCP Course - Lesson 5: Deployment"; url := Some "https://example.com/mcp-lesson-5" |};
    {| text := "Advanced Retrieval Course - Module 2"; url := None |};
    {| text := "Anthropic API Documentation"; url := None |} ].

Definition mock_outline_found : string :=
  String.concat nl [
    "**MCP Course Outline Found:**";
    "            ";
    "Lesson 1: Introduction to MCP";
    "- Model Context Protocol overview";
    "- Development environment setup";
    "- Core concepts";
    EmptyString;
    "Lesson 5: Deployment and Scaling  ";
    "- Production deployment strategies";
    "- Performance optimization";
    "- Monitoring and maintenance" ].

Definition mock_lesson5_found : string :=
  String.concat nl [
    "**Lesson 5: Deployment and Scaling**";
    "            ";
    "This lesson covers:";
    "- Production deployment strategies for MCP applications";
    "- Performance optimization techniques";
    "- Monitoring and maintenance best practices";
    "- Enterprise scaling considerations" ].

Definition mock_search_results (query : string) : string :=
  "**Mock Search Results for: " +:+ query +:+
  String.concat nl [
    "**";
    "            ";
    "Found relevant information about course materials. This is demonstration mode - ";
    "the system would normally search through actual course content to provide ";
    "specific answers about lessons, outlines, and course materials." ].

(** [execute_mock]; [.lower()] on an argument that is not a string is an
    AttributeError, raised after [last_sources] was assigned. *)
Definition CourseSearchTool_execute_mock : method :=
  fun kwargs '(self, r) =>
    match bind_search_args kwargs with
    | Raise e => (Raise e, (self, r))
    | Ret (query, course_name, lesson_number) =>
        let '(sample, r') :=
          random_sample (Nat.min 2 (length mock_sources_data)) mock_sources_data r in
        let self' := set_last_sources self sample in
        match query with
        | PStr q =>
            let fallback := (Ret (mock_search_results q), (self', r')) in
            let lesson_case :=
              if contains "lesson" (lower q) &&
                 match lesson_number with PInt 5 => true | _ => false end
              then (Ret mock_lesson5_found, (self', r'))
              else fallback in
            if contains "outline" (lower q) && truthy course_name then
              match course_name with
              | PStr c =>
                  if contains "mcp" (lower c)
                  then (Ret mock_outline_found, (self', r'))
                  else lesson_case
              | _ => (Raise AttributeError, (self', r'))
              end
            else lesson_case
        | _ => (Raise AttributeError, (self', r'))
        end
    end.

(** [CourseSearchTool(vector_store)] *)
Definition CourseSearchTool (vector_store : VectorStore) : Tool :=
  {| get_tool_definition := course_search_definition;
     execute := CourseSearchTool_execute vector_store;
     execute_mock := Some CourseSearchTool_execute_mock;
     fields :=
       {| last_sources := Some [];
          mock_sources :=
            Some [ "MCP Course - Lesson 1: Introduction";
                   "MCP Course - Lesson 5: Deployment";
                   "Advanced Retrieval Course - Module 2";
                   "Anthropic API Documentation" ] |} |}.

(** *** Objects and the heap *)

Definition loc := nat.

Record world := {
  heap : gmap loc Tool;
  random : rng;
}.

(** A reference always designates an object; a location outside the heap
    has no counterpart in the program and ends the call with this error. *)
Definition dangling : exn := Exception "SystemError" "no such object".

Definition set_tool (w : world) (l : loc) (t : Tool) : world :=
  {| heap := <[l := t]> (heap w); random := random w |}.

(** A method call on the object at [l]; the object is updated in place. *)
Definition call_method (l : loc) (t : Tool) (f : method)
    (kwargs : gmap string pyval) (w : world) : outcome string * world :=
  let '(res, (self', r')) := f kwargs (fields t, random w) in
  (res, {| heap := <[l := set_fields t self']> (heap w); random := r' |}).

(** [tool.execute] called through a reference, with keyword arguments *)
Definition call_execute (l : loc) (kwargs : gmap string pyval) (w : world)
    : outcome string * world :=
  match heap w !! l with
  | None => (Raise dangling, w)
  | Some t => call_method l t (execute t) kwargs w
  end.

(** *** class ToolManager *)

Record ToolManager := {
  tools : list (jval * loc);
  mock_mode : bool;
}.

Definition ToolManager_init (mock_mode : bool) : ToolManager :=
  {| tools := []; mock_mode := mock_mode |}.

Definition register_tool (self : ToolManager) (tool : loc) (w : world)
    : outcome unit * ToolManager :=
  match heap w !! tool with
  | None => (Raise dangling, self)
  | Some t =>
      let tool_def := get_tool_definition t in
      let tool_name := dict_get "name" tool_def in
      if negb (jtruthy tool_name) then
        (Raise (ValueError "Tool must have a 'name' in its definition"), self)
      else if hashable tool_name then
        (Ret tt, {| tools := odict_set tool_name tool (tools self);
                    mock_mode := mock_mode self |})
      else (Raise TypeError, self)
  end.

Definition get_tool_definitions (self : ToolManager) (w : world)
    : list (list (string * jval)) :=
  omap (fun l => get_tool_definition <$> heap w !! l) (odict_values (tools self)).

Definition manager_mock_sources : list source :=
  [ {| text := "MCP Course - Lesson 1: Introduction";
       url := Some "https://learn.deeplearning.ai/courses/mcp/lesson/1/introduction" |};
    {| text := "MCP Course - Lesson 5: Deployment";
       url := Some "https://learn.deeplearning.ai/courses/mcp/lesson/5/deployment" |};
    {| text := "Advanced Retrieval Course - Module 2";
       url := Some "https://learn.deeplearning.ai/courses/advanced-retrieval/lesson/2" |};
    {| text := "Anthropic API Documentation";
       url := Some "https://docs.anthropic.com/api/overview" |} ].

(** The loop of [_execute_mock_search]: the first tool with a
    [mock_sources] attribute receives the sources, then [break]. *)
Fixpoint set_mock_sources (w : world) (ls : list loc) : world :=
  match ls with
  | [] => w
  | l :: rest =>
      match heap w !! l with
      | Some t =>
          match mock_sources (fields t) with
          | Some _ =>
              set_tool w l (set_fields t (set_last_sources (fields t) (take 2 manager_mock_sources)))
          | None => set_mock_sources w rest
          end
      | None => set_mock_sources w rest
      end
  end.

Definition _execute_mock_search (self : ToolManager) (kwargs : gmap string pyval)
    (w : world) : outcome string * world :=
  let query := default (PStr "general query") (kwargs !! "query") in
  let w' := set_mock_sources w (odict_values (tools self)) in
  (Ret ("Mock search completed for: " +:+ py_str query), w').

(** The body of [execute_tool] on its bound parameters. *)
Definition execute_tool (self : ToolManager) (tool_name : string)
    (kwargs : gmap string pyval) (w : world) : outcome string * world :=
  match odict_get (JStr tool_name) (tools self) with
  | None =>
      if mock_mode self && String.eqb tool_name "search_courses" then
        _execute_mock_search self kwargs w
      else (Ret ("Tool '" +:+ tool_name +:+ "' not found"), w)
  | Some l =>
      match heap w !! l with
      | None => (Raise dangling, w)
      | Some t =>
          match mock_mode self, execute_mock t with
          | true, Some mock => call_method l t mock kwargs w
          | _, _ => call_method l t (execute t) kwargs w
          end
      end
  end.

(** The loop of [get_last_sources] over [self.tools.values()]. *)
Fixpoint first_sources (w : world) (ls : list loc) : list source :=
  match ls with
  | [] => []
  | l :: rest =>
      match heap w !! l with
      | Some t =>
          match last_sources (fields t) with
          | Some (s :: ss) => s :: ss
          | _ => first_sources w rest
          end
      | None => first_sources w rest
      end
  end.

Definition get_last_sources (self : ToolManager) (w : world) : list source :=
  first_sources w (odict_values (tools self)).

Definition reset_tool (w : world) (l : loc) : world :=
  match heap w !! l with
  | Some t =>
      match last_sources (fields t) with
      | Some _ => set_tool w l (set_fields t (set_last_sources (fields t) []))
      | None => w
      end
  | None => w
  end.

Definition reset_sources (self : ToolManager) (w : world) : world :=
  foldl reset_tool w (odict_values (tools self)).

End SearchTools.

(** ** [ai_generator.py] *)
Module AIGen.
Import Py VectorStore SearchTools.

(** *** The model call contract *)

Inductive content_block :=
  | TextBlock (text : string)
  | ToolUseBlock (id name : string) (input : gmap string pyval).

(** [{"type": "tool_result", "tool_use_id": ..., "content": ...}] *)
Record tool_result := {
  result_type : string;
  tool_use_id : string;
  result_content : string;
}.

Inductive message_content :=
  | StrContent (s : string)
  | BlockContent (blocks : list content_block)
  | ResultContent (results : list tool_result).

(** [{"role": ..., "content": ...}] *)
Record message := {
  role : string;
  content : message_content;
}.

(** The keyword arguments of [client.messages.create]; [None] stands for
    an absent key. *)
Record api_params := {
  model : string;
  temperature : Z;
  max_tokens : Z;
  messages : list message;
  system : string;
  api_tools : option (list (list (string * jval)));
  tool_choice : option (list (string * jval));
}.

(** The response of a model call. *)
Record Message := {
  stop_reason : string;
  response_content : list content_block;
}.

(** The hosted model: its answer may depend on the number of calls
    already made. *)
Record Anthropic := {
  messages_create : nat -> api_params -> outcome Message;
}.

(** *** State and exceptions of a query *)

Record gstate := {
  tool_world : world;
  calls : list api_params;
}.

Definition M (A : Type) : Type := gstate -> outcome A * gstate.

#[global] Instance M_ret : MRet M := fun A a s => (Ret a, s).

#[global] Instance M_bind : MBind M := fun A B f m s =>
  match m s with
  | (Ret a, s') => f a s'
  | (Raise e, s') => (Raise e, s')
  end.

Definition raise {A} (e : exn) : M A := fun s => (Raise e, s).

Definition lift_outcome {A} (o : outcome A) : M A := fun s => (o, s).

(** [try: m  except Exception: pass] *)
Definition swallow {A} (m : M A) : M unit := fun s => (Ret tt, snd (m s)).

(** A call on the tool side: the tools' world changes, the log does not. *)
Definition lift_tool {A} (f : world -> outcome A * world) : M A := fun s =>
  let '(res, w') := f (tool_world s) in
  (res, {| tool_world := w'; calls := calls s |}).

(** [client.messages.create] on the given parameters, recorded in the log
    of calls. *)
Definition create (client : Anthropic) (params : api_params) : M Message := fun s =>
  (messages_create client (length (calls s)) params,
   {| tool_world := tool_world s; calls := calls s ++ [params] |}).

(** [content[0].text] *)
Definition first_text (blocks : list content_block) : M string :=
  match blocks with
  | [] => raise IndexError
  | TextBlock text :: _ => mret text
  | ToolUseBlock _ _ _ :: _ => raise AttributeError
  end.

(** *** class AIGenerator *)

Definition SYSTEM_PROMPT : string :=
  String.concat nl [
    " You are an AI assistant specialized in course materials and educational content with access to a comprehensive search tool for course information.";
    EmptyString;
    "Search Tool Usage:";
    "- Use the search tool **only** for questions about specific course content or detailed educational materials";
    "- **One search per query maximum**";
    "- Synthesize search results into accurate, fact-based responses";
    "- If search yields no results, state this clearly without offering alternatives";
    EmptyString;
    "Response Protocol:";
    "- **General knowledge questions**: Answer using existing knowledge without searching";
    "- **Course-specific questions**: Search first, then answer";
    "- **No meta-commentary**:";
    " - Provide direct answers only — no reasoning process, search explanations, or question-type analysis";
    (" - Do not mention " +:+ dquote +:+ "based on the search results" +:+ dquote);
    EmptyString;
    EmptyString;
    "All responses must be:";
    "1. **Brief, Concise and focused** - Get to the point quickly";
    "2. **Educational** - Maintain instructional value";
    "3. **Clear** - Use accessible language";
    "4. **Example-supported** - Include relevant examples when they aid understanding";
    "Provide only the direct answer to what was asked.";
    EmptyString ].

Definition mock_outline_MCP : string :=
  String.concat nl [
    "# MCP: Build Rich-Context AI Apps with Anthropic Course Outline";
    EmptyString;
    "## Lesson 1: Introduction to MCP";
    "- Overview of Model Context Protocol";
    "- Setting up the development environment";
    "- Key concepts and terminology";
    EmptyString;
    "## Lesson 2: Basic MCP Implementation";
    "- Creating your first MCP server";
    "- Understanding client-server architecture";
    "- Basic communication patterns";
    EmptyString;
    "## Lesson 3: Advanced Features";
    "- Tool integration and custom functions";
    "- Resource management and optimization";
    "- Error handling and debugging";
    EmptyString;
    "## Lesson 4: Building Real Applications";
    "- Practical implementation examples";
    "- Integration with existing systems";
    "- Best practices and patterns";
    EmptyString;
    "## Lesson 5: Deployment and Scaling";
    "- Production deployment strategies";
    "- Performance optimization";
    "- Monitoring and maintenance" ].

Definition mock_outline_default : string :=
  String.concat nl [
    "# Course Outline";
    EmptyString;
    "## Module 1: Foundations";
    "- Core concepts and terminology";
    "- Setting up the environment";
    "- Basic implementation patterns";
    EmptyString;
    "## Module 2: Implementation";
    "- Hands-on development";
    "- Key features and capabilities";
    "- Integration techniques";
    EmptyString;
    "## Module 3: Advanced Topics";
    "- Optimization strategies";
    "- Complex scenarios and solutions";
    "- Best practices";
    EmptyString;
    "## Module 4: Real-World Applications";
    "- Case studies and examples";
    "- Production considerations";
    "- Troubleshooting and maintenance" ].

Definition mock_chatbot : string :=
  "Yes, several courses include chatbot implementations. The 'MCP: Build Rich-Context AI Apps with Anthropic' course covers building AI applications that can serve as intelligent chatbots. The course teaches how to create context-aware conversational systems using Anthropic's tools and the Model Context Protocol.".

Definition mock_rag : string :=
  "RAG (Retrieval-Augmented Generation) is explained in the 'Advanced Retrieval for AI with Chroma' course. RAG combines information retrieval with language generation to provide more accurate and contextual responses by first retrieving relevant information from a knowledge base, then using that information to generate informed answers.".

Definition mock_lesson : string :=
  "Lesson 5 of the MCP course covers 'Deployment and Scaling'. This lesson focuses on production deployment strategies, performance optimization techniques, and how to monitor and maintain MCP applications in real-world environments. Students learn about scaling considerations and best practices for enterprise deployment.".

Definition mock_default : string :=
  "I'm a course materials assistant running in demonstration mode. I can help you with questions about course content, outlines, and educational materials. The system has information about courses covering topics like MCP (Model Context Protocol), RAG (Retrieval-Augmented Generation), Chroma database, and Anthropic's AI tools.".

Inductive mock_entry :=
  | Canned (response : string)
  | Variants (by_course : list (string * string)).

(** [self.mock_responses] and [self.query_patterns]: assigned once by
    [__init__], the same for every instance, and never changed. *)
Definition mock_responses : list (string * mock_entry) :=
  [ ("outline", Variants [ ("MCP", mock_outline_MCP); ("default", mock_outline_default) ]);
    ("chatbot", Canned mock_chatbot);
    ("rag", Canned mock_rag);
    ("lesson", Canned mock_lesson);
    ("default", Canned mock_default) ].

Definition query_patterns : list (string * list string) :=
  [ ("outline", ["outline"; "structure"; "syllabus"; "overview"; "contents"]);
    ("chatbot", ["chatbot"; "chat bot"; "conversational"; "bot"]);
    ("rag", ["rag"; "retrieval"; "augmented"; "generation"]);
    ("lesson", ["lesson"; "module"; "chapter"; "section"]) ].

Record AIGenerator := {
  mock_mode : bool;
  generator_model : string;
  client : option Anthropic;
}.

(** [__init__]; [anthropic] stands for the constructor of the client,
    which is built only outside mock mode. *)
Definition AIGenerator_init (anthropic : string -> Anthropic)
    (api_key model : string) (mock_mode : bool) : AIGenerator :=
  {| mock_mode := mock_mode;
     generator_model := model;
     client := if mock_mode then None else Some (anthropic api_key) |}.

(** [self.base_params] extended with the messages and the system content *)
Definition base_params (self : AIGenerator) (messages : list message)
    (system : string) : api_params :=
  {| model := generator_model self;
     temperature := 0;
     max_tokens := 800;
     messages := messages;
     system := system;
     api_tools := None;
     tool_choice := None |}.

Definition with_tools (params : api_params) (tools : list (list (string * jval)))
    : api_params :=
  {| model := model params;
     temperature := temperature params;
     max_tokens := max_tokens params;
     messages := messages params;
     system := system params;
     api_tools := Some tools;
     tool_choice := Some [("type", JStr "auto")] |}.

Fixpoint assoc_get {V} (k : string) (d : list (string * V)) : option V :=
  match d with
  | [] => None
  | (k', v) :: rest => if String.eqb k k' then Some v else assoc_get k rest
  end.

(** [self.mock_responses[key]] where the caller returns it as the answer.
    An entry that is itself a dict is no answer text; the tables above
    never lead there. *)
Definition canned_response (key : string) : outcome string :=
  match assoc_get key mock_responses with
  | None => Raise KeyError
  | Some (Canned response) => Ret response
  | Some (Variants _) => Raise TypeError
  end.

(** [self.mock_responses[key][variant]] *)
Definition variant_response (key variant : string) : outcome string :=
  match assoc_get key mock_responses with
  | None => Raise KeyError
  | Some (Canned _) => Raise TypeError
  | Some (Variants by_course) =>
      match assoc_get variant by_course with
      | None => Raise KeyError
      | Some response => Ret response
      end
  end.

(** The loop over [self.query_patterns.items()], then the default. *)
Fixpoint match_patterns (query_lower : string)
    (patterns : list (string * list string)) : outcome string :=
  match patterns with
  | [] => canned_response "default"
  | (pattern_type, keywords) :: rest =>
      if any_in keywords query_lower then
        if String.eqb pattern_type "outline" then
          if contains "mcp" query_lower
          then variant_response "outline" "MCP"
          else variant_response "outline" "default"
        else canned_response pattern_type
      else match_patterns query_lower rest
  end.

Definition trigger_keywords : list string :=
  ["course"; "mcp"; "rag"; "chroma"; "anthropic"].

(** The best-effort tool call of the simulation path:
    [try: tool_manager.execute_tool("search_courses", query=query)]
    [except Exception: pass]. *)
Definition simulate_tool_usage (query query_lower : string)
    (tool_manager : option ToolManager) : M unit :=
  match tool_manager with
  | Some manager =>
      if any_in trigger_keywords query_lower then
        swallow (lift_tool
          (execute_tool manager "search_courses" {[ "query" := PStr query ]}))
      else mret tt
  | None => mret tt
  end.

Definition _generate_mock_response (self : AIGenerator) (query : string)
    (tool_manager : option ToolManager) : M string :=
  let query_lower := lower query in
  simulate_tool_usage query query_lower tool_manager ;;
  lift_outcome (match_patterns query_lower query_patterns).

(** The call [tool_manager.execute_tool(name, **input)]: a key of [input]
    named like a parameter of [execute_tool] cannot be bound. *)
Definition call_execute_tool (tool_manager : ToolManager) (name : string)
    (input : gmap string pyval) (w : world) : outcome string * world :=
  match input !! "self", input !! "tool_name" with
  | None, None => execute_tool tool_manager name input w
  | _, _ => (Raise TypeError, w)
  end.

(** The loop of [_handle_tool_execution] over [initial_response.content]. *)
Fixpoint run_tool_calls (tool_manager : ToolManager) (blocks : list content_block)
    (tool_results : list tool_result) : M (list tool_result) :=
  match blocks with
  | [] => mret tool_results
  | TextBlock _ :: rest => run_tool_calls tool_manager rest tool_results
  | ToolUseBlock id name input :: rest =>
      tool_result ← lift_tool (call_execute_tool tool_manager name input);
      run_tool_calls tool_manager rest
        (tool_results ++ [ {| result_type := "tool_result";
                              tool_use_id := id;
                              result_content := tool_result |} ])
  end.

(** The message list of the follow-up call. *)
Definition follow_up_messages (initial_response : Message) (params : api_params)
    (tool_results : list tool_result) : list message :=
  let messages := messages params in
  let messages :=
    messages ++ [ {| role := "assistant";
                     content := BlockContent (response_content initial_response) |} ] in
  match tool_results with
  | [] => messages
  | _ => messages ++ [ {| role := "user"; content := ResultContent tool_results |} ]
  end.

Definition _handle_tool_execution (self : AIGenerator) (client : Anthropic)
    (initial_response : Message) (params : api_params)
    (tool_manager : ToolManager) : M string :=
  tool_results ← run_tool_calls tool_manager (response_content initial_response) [];
  let messages := follow_up_messages initial_response params tool_results in
  let final_params := base_params self messages (system params) in
  final_response ← create client final_params;
  first_text (response_content final_response).

Definition system_content (conversation_history : option string) : string :=
  if opt_truthy conversation_history
  then SYSTEM_PROMPT +:+ nl +:+ nl +:+ "Previous conversation:" +:+ nl
       +:+ default EmptyString conversation_history
  else SYSTEM_PROMPT.

Definition generate_response (self : AIGenerator) (query : string)
    (conversation_history : option string)
    (tools : option (list (list (string * jval))))
    (tool_manager : option ToolManager) : M string :=
  if mock_mode self then _generate_mock_response self query tool_manager
  else
    let params :=
      base_params self [ {| role := "user"; content := StrContent query |} ]
        (system_content conversation_history) in
    let params :=
      match tools with
      | Some (d :: ds) => with_tools params (d :: ds)
      | _ => params
      end in
    match client self with
    | None => raise AttributeError
    | Some client =>
        response ← create client params;
        match tool_manager with
        | Some manager =>
            if String.eqb (stop_reason response) "tool_use"
            then _handle_tool_execution self client response params manager
            else first_text (response_content response)
        | None => first_text (response_content response)
        end
    end.

End AIGen.

(** ** Vocabulary of the statements *)
Module Spec.
Import Py VectorStore SearchTools AIGen.



Definition has_key (k : string) (d : list (string * jval)) : bool :=
  existsb (fun kv => String.eqb k kv.1) d.

(** The attribute [last_sources] of the object at [l], if both exist. *)
Definition sources_at (w : world) (l : loc) : option (list source) :=
  t ← heap w !! l; last_sources (fields t).

(** What a reset leaves in [last_sources]: the empty list where the
    attribute exists. *)
Definition emptied (o : option (list source)) : option (list source) :=
  match o with Some _ => Some [] | None => None end.

(** The branch that [CourseSearchTool.execute] takes on a result. *)
Definition error_branch (results : SearchResults) : bool :=
  opt_truthy (error results).

Definition empty_branch (results : SearchResults) : bool :=
  negb (opt_truthy (error results)) && is_empty results.

(** The part of the empty-result message that names the filters which
    the code tests as true. *)
Definition filter_info (course_name lesson_number : pyval) : string :=
  (if truthy course_name
   then " in course '" +:+ py_str course_name +:+ "'" else EmptyString) +:+
  (if truthy lesson_number
   then " in lesson " +:+ py_str lesson_number else EmptyString).

(** The formatted blocks of a result, joined by a blank line. *)
Definition formatted_hits (store : VectorStore.VectorStore) (results : SearchResults)
    : string :=
  String.concat (nl +:+ nl)
    (map (fun hit => fst (format_hit store hit))
         (zip (documents results) (metadata results))).

(** The sources that the formatting path stores for a result. *)
Definition hit_sources (store : VectorStore.VectorStore) (results : SearchResults)
    : list source :=
  map (fun hit => snd (format_hit store hit))
      (zip (documents results) (metadata results)).

(** The first category of the table, in table order, one of whose keywords
    occurs in the lower-cased query. *)
Definition first_category (query_lower : string) : option string :=
  fst <$> find (fun entry => any_in entry.2 query_lower) query_patterns.

(** The canned answer of a category; the outline category has the
    product-specific variant and the generic one. *)
Definition category_response (category : option string) (query_lower : string)
    : string :=
  match category with
  | Some "outline" =>
      if contains "mcp" query_lower then mock_outline_MCP else mock_outline_default
  | Some "chatbot" => mock_chatbot
  | Some "rag" => mock_rag
  | Some "lesson" => mock_lesson
  | _ => mock_default
  end.

End Spec.

(** ** Concrete objects for the examples *)
Module Examples.
Import Py VectorStore SearchTools AIGen.

Definition two_hits : SearchResults :=
  {| documents := ["Lesson one text."; "Lesson two text."];
     metadata := [ {| course_title := Some "Course 1"; lesson_number := Some 1%Z |};
                   {| course_title := Some "Course 1"; lesson_number := Some 2%Z |} ];
     error := None |}.

Definition no_hits : SearchResults :=
  {| documents := []; metadata := []; error := None |}.

Definition failed_search : SearchResults :=
  {| documents := []; metadata := []; error := Some "Search error: index unavailable" |}.

(** A store that knows one course, fails on the query "broken" and finds
    nothing else. *)
Definition demo_store : VectorStore.VectorStore :=
  {| search := fun query _ _ =>
       match query with
       | PStr "machine learning" => two_hits
       | PStr "broken" => failed_search
       | _ => no_hits
       end;
     get_lesson_link := fun title n =>
       if String.eqb title "Course 1" && (n =? 1)%Z
       then Some "https://example.com/course-1/lesson-1"
       else None |}.

(** A tool whose declaration has no name. *)
Definition nameless_tool : Tool :=
  {| get_tool_definition := [ ("description", JStr "A tool without a name") ];
     execute := fun _ st => (Ret "ok", st);
     execute_mock := None;
     fields := {| last_sources := None; mock_sources := None |} |}.

Definition demo_world : world :=
  {| heap := {[ 0%nat := CourseSearchTool demo_store; 1%nat := nameless_tool ]};
     random := [3; 1]%nat |}.

Definition live_manager : ToolManager :=
  snd (register_tool (ToolManager_init false) 0%nat demo_world).

Definition mock_manager : ToolManager :=
  snd (register_tool (ToolManager_init true) 0%nat demo_world).

(** A store that finds the course unless a lesson filter is given. *)
Definition lesson_filter_store : VectorStore.VectorStore :=
  {| search := fun _ _ lesson_number =>
       if is_none lesson_number then two_hits else no_hits;
     get_lesson_link := fun _ _ => None |}.

(** The world after one successful search through the registry. *)
Definition searched_world : world :=
  snd (execute_tool live_manager "search_course_content"
         {[ "query" := PStr "machine learning" ]} demo_world).

Definition text_reply (answer : string) : Message :=
  {| stop_reason := "end_turn"; response_content := [TextBlock answer] |}.

Definition tool_request (blocks : list content_block) : Message :=
  {| stop_reason := "tool_use"; response_content := blocks |}.

(** A model that asks for tools in its first answer and replies in text
    from then on. *)
Definition scripted_model (blocks : list content_block) : Anthropic :=
  {| messages_create := fun n _ =>
       match n with
       | O => Ret (tool_request blocks)
       | _ => Ret (text_reply "Final answer.")
       end |}.

Definition live_generator (blocks : list content_block) : AIGenerator :=
  AIGenerator_init (fun _ => scripted_model blocks) "key" "claude" false.

Definition mock_generator : AIGenerator :=
  AIGenerator_init (fun _ => scripted_model []) "key" "claude" true.

Definition start : gstate := {| tool_world := demo_world; calls := [] |}.

(** The state of a query after its first model call. *)
Definition after_first_call (params : api_params) : gstate :=
  {| tool_world := demo_world; calls := [params] |}.

Definition search_call (id query : string) : content_block :=
  ToolUseBlock id "search_course_content" {[ "query" := PStr query ]}.

Definition first_params : api_params :=
  with_tools
    (base_params (live_generator []) [ {| role := "user"; content := StrContent "What is in lesson 1?" |} ]
       (system_content None))
    [course_search_definition].

(** Three requests, the second of which lacks the required [query]. *)
Definition faulty_request : Message :=
  tool_request
    [ search_call "toolu_1" "machine learning";
      ToolUseBlock "toolu_2" "search_course_content" ∅;
      search_call "toolu_3" "broken" ].



End Examples.

(** ** Vocabulary and objects for the further properties *)
Module Cover.
Import Py VectorStore SearchTools AIGen Spec Examples.

(** Nothing to cite: the attribute is absent or holds the empty list. *)
Definition holds_no_sources (w : world) (l : loc) : Prop :=
  sources_at w l = None ∨ sources_at w l = Some [].

(** What a reset keeps of an object. *)
Definition same_but_sources (t t' : Tool) : Prop :=
  get_tool_definition t' = get_tool_definition t ∧
  execute t' = execute t ∧
  execute_mock t' = execute_mock t ∧
  mock_sources (fields t') = mock_sources (fields t).

(** One world after another: the generator as it was, no object created
    or lost, and every object the same but for its sources. *)
Definition sources_only (w w' : world) : Prop :=
  random w' = random w ∧
  forall l,
    match heap w !! l with
    | None => heap w' !! l = None
    | Some t => exists t', heap w' !! l = Some t' ∧ same_but_sources t t'
    end.

(** The registered names, in the order of the registry. *)
Definition registry_keys (m : ToolManager) : list jval :=
  map fst (SearchTools.tools m).

(** A second tool, with a source of its own and no mock behaviour. *)
Definition weather_tool : Tool :=
  {| get_tool_definition :=
       [ ("name", JStr "get_weather");
         ("description", JStr "Report the weather of a city") ];
     execute := fun _ st => (Ret "Sunny.", st);
     execute_mock := None;
     fields :=
       {| last_sources := Some [ {| text := "Weather service"; url := None |} ];
          mock_sources := None |} |}.

(** The same declaration on another object. *)
Definition forecast_tool : Tool :=
  {| get_tool_definition := get_tool_definition weather_tool;
     execute := fun _ st => (Ret "Rain tomorrow.", st);
     execute_mock := None;
     fields := {| last_sources := None; mock_sources := None |} |}.

Definition campus_world : world :=
  {| heap := {[ 0%nat := CourseSearchTool demo_store;
                1%nat := nameless_tool;
                2%nat := weather_tool;
                3%nat := forecast_tool ]};
     random := [3; 1]%nat |}.

(** The retrieval tool first, the weather tool second. *)
Definition campus_manager : ToolManager :=
  snd (register_tool live_manager 2%nat campus_world).

(** The parameters of the first model call of a query. *)
Definition first_call_params (self : AIGenerator) (query : string)
    (history : option string) (tools : option (list (list (string * jval))))
    : api_params :=
  let params :=
    base_params self [ {| role := "user"; content := StrContent query |} ]
      (system_content history) in
  match tools with
  | Some (d :: ds) => with_tools params (d :: ds)
  | _ => params
  end.

(** What [content[0].text] evaluates to. *)
Definition first_text_outcome (blocks : list content_block) : outcome string :=
  match blocks with
  | [] => Raise IndexError
  | TextBlock text :: _ => Ret text
  | ToolUseBlock _ _ _ :: _ => Raise AttributeError
  end.

(** The state of a query after one more model call. *)
Definition logged (s : gstate) (w : world) (new : list api_params) : gstate :=
  {| tool_world := w; calls := calls s ++ new |}.

(** The fixed part of every request: the model of the generator, the
    pinned sampling, and a system content that begins with the prompt. *)
Definition pinned (self : AIGenerator) (p : api_params) : Prop :=
  model p = generator_model self ∧ temperature p = 0%Z ∧ max_tokens p = 800%Z ∧
  String.prefix SYSTEM_PROMPT (system p) = true.

(** The outcome of a model call followed by [content[0].text]. *)
Definition final_text (reply : outcome Message) : outcome string :=
  match reply with
  | Ret response => first_text_outcome (response_content response)
  | Raise e => Raise e
  end.

(** Every keyword of the table of categories. *)
Definition all_keywords : list string := concat (map snd query_patterns).



(** A model that answers every call with the same response. *)
Definition constant_model (response : Message) : Anthropic :=
  {| messages_create := fun _ _ => Ret response |}.

(** A model that is out of reach. *)
Definition failing_model : Anthropic :=
  {| messages_create := fun _ _ => Raise (Exception "APIConnectionError" "Connection error.") |}.

Definition generator_of (client : Anthropic) : AIGenerator :=
  AIGenerator_init (fun _ => client) "key" "claude" false.

(** A tool whose declared name is a list, which no dict takes as a key. *)
Definition misnamed_tool : Tool :=
  {| get_tool_definition := [ ("name", JArr [JStr "search"; JStr "find"]) ];
     execute := fun _ st => (Ret "ok", st);
     execute_mock := None;
     fields := {| last_sources := None; mock_sources := None |} |}.


End Cover.

(** * Properties *)

Import Py VectorStore SearchTools AIGen Spec Examples.

(** ** Records, dictionaries and the heap *)

Lemma set_fields_same (t : Tool) : set_fields t (fields t) = t.
Proof. by destruct t. Qed.

Lemma odict_get_set {V} (k : jval) (v : V) (d : list (jval * V)) :
  key_eqb k k = true -> odict_get k (odict_set k v d) = Some v.
Proof.
  intros Hk. induction d as [|[k' v'] d IH]; simpl.
  - by rewrite Hk.
  - destruct (key_eqb k k') eqn:E; simpl; rewrite E; [done | exact IH].
Qed.

Lemma has_key_dict_get (k : string) (d : list (string * jval)) :
  has_key k d = false -> dict_get k d = JNull.
Proof.
  induction d as [|[k' v] d IH]; simpl; [done|].
  destruct (String.eqb k k'); simpl; [discriminate | exact IH].
Qed.

(** A method call that leaves the receiver's attributes and the generator
    as they were leaves the world as it was. *)
Lemma call_method_frame (l : loc) (t : Tool) (f : method) kwargs (w : world) res :
  heap w !! l = Some t ->
  f kwargs (fields t, random w) = (res, (fields t, random w)) ->
  call_method l t f kwargs w = (res, w).
Proof.
  intros Hl Hf. unfold call_method. rewrite Hf, set_fields_same.
  f_equal. destruct w as [h r]. simpl in *. by rewrite insert_id.
Qed.

(** ** The retrieval tool *)

Lemma append_nil_r (s : string) : s +:+ EmptyString = s.
Proof.
  induction s as [|c s IH]; [done|].
  change (String c (s +:+ EmptyString) = String c s). by rewrite IH.
Qed.

(** The three branches of [CourseSearchTool.execute] on bound arguments. *)
Lemma CourseSearchTool_execute_branches (store : VectorStore.VectorStore)
    kwargs query course_name lesson_number (self : tool_fields) (r : rng) :
  bind_search_args kwargs = Ret (query, course_name, lesson_number) ->
  let results := search store query course_name lesson_number in
  CourseSearchTool_execute store kwargs (self, r) =
    if error_branch results then
      (Ret (default EmptyString (error results)), (self, r))
    else if empty_branch results then
      (Ret ("No relevant content found" +:+ filter_info course_name lesson_number +:+ "."),
       (self, r))
    else
      (Ret (formatted_hits store results),
       (set_last_sources self (hit_sources store results), r)).
Proof.
  intros Hb results.
  unfold CourseSearchTool_execute, error_branch, empty_branch, filter_info.
  rewrite Hb. fold results.
  destruct (opt_truthy (error results)); [reflexivity|]. simpl negb. cbv iota.
  rewrite andb_true_l.
  destruct (is_empty results).
  - destruct (truthy course_name), (truthy lesson_number);
      rewrite ?append_nil_r; reflexivity.
  - unfold _format_results, hit_sources, formatted_hits. by rewrite !map_map.
Qed.

(** ** The registry *)

(** Registration files the tool under the name of its declaration. *)
Lemma register_tool_lookup (m m' : ToolManager) (l : loc) (w : world) (t : Tool)
    (N : string) :
  heap w !! l = Some t ->
  dict_get "name" (get_tool_definition t) = JStr N ->
  register_tool m l w = (Ret tt, m') ->
  odict_get (JStr N) (SearchTools.tools m') = Some l.
Proof.
  intros Hl Hn. unfold register_tool. rewrite Hl, Hn. simpl.
  destruct (negb (str_truthy N)); [discriminate|].
  intros [= <-]. simpl. apply odict_get_set. simpl. apply String.eqb_refl.
Qed.







(** C7.  A declaration without a [name] key, or with the empty name, is
    refused with a ValueError and the registry is returned as it was. *)
Theorem register_tool_nameless (m : ToolManager) (l : loc) (w : world) (t : Tool) :
  heap w !! l = Some t ->
  has_key "name" (get_tool_definition t) = false
    ∨ dict_get "name" (get_tool_definition t) = JStr EmptyString ->
  register_tool m l w
    = (Raise (ValueError "Tool must have a 'name' in its definition"), m).
Proof.
  intros Hl Hname. unfold register_tool. rewrite Hl.
  destruct Hname as [Hk | Hk]; [apply has_key_dict_get in Hk|]; by rewrite Hk.
Qed.

(** The tool without a name is refused and the registry keeps its one tool. *)
Lemma register_tool_nameless_witness :
  heap demo_world !! 1%nat = Some nameless_tool ∧
  has_key "name" (get_tool_definition nameless_tool) = false ∧
  register_tool live_manager 1%nat demo_world
    = (Raise (ValueError "Tool must have a 'name' in its definition"), live_manager).
Proof.
  split; [reflexivity|]. split; [reflexivity|].
  apply (register_tool_nameless live_manager 1%nat demo_world nameless_tool);
    [reflexivity | by left].
Defined.

(** ** The source side-channel *)

Lemma sources_at_reset_tool (w : world) (l l' : loc) :
  sources_at (reset_tool w l') l
    = if decide (l = l') then emptied (sources_at w l) else sources_at w l.
Proof.
  unfold reset_tool, sources_at.
  destruct (heap w !! l') as [t'|] eqn:Hl'.
  - destruct (last_sources (fields t')) as [ss|] eqn:Hs.
    + destruct (decide (l = l')) as [->|Hd]; simpl.
      * rewrite lookup_insert_eq, Hl'. simpl. by rewrite Hs.
      * by rewrite lookup_insert_ne.
    + destruct (decide (l = l')) as [->|Hd]; [|done]. rewrite Hl'. simpl. by rewrite Hs.
  - destruct (decide (l = l')) as [->|Hd]; [|done]. by rewrite Hl'.
Qed.

Lemma emptied_idem (o : option (list source)) : emptied (emptied o) = emptied o.
Proof. by destruct o. Qed.

Lemma sources_at_reset_all (ls : list loc) : forall (w : world) (l : loc),
  sources_at (foldl reset_tool w ls) l
    = if decide (l ∈ ls) then emptied (sources_at w l) else sources_at w l.
Proof.
  induction ls as [|l' ls IH]; intros w l.
  - destruct (decide (l ∈ [])) as [Hd|Hd]; [by apply elem_of_nil in Hd | done].
  - change (foldl reset_tool w (l' :: ls)) with (foldl reset_tool (reset_tool w l') ls).
    rewrite IH, sources_at_reset_tool.
    destruct (decide (l = l')) as [->|Hne].
    + rewrite emptied_idem. rewrite (decide_True (P := l' ∈ l' :: ls)) by left.
      by destruct (decide (l' ∈ ls)).
    + destruct (decide (l ∈ ls)) as [Hin|Hout].
      * by rewrite (decide_True (P := l ∈ l' :: ls)) by by right.
      * rewrite (decide_False (P := l ∈ l' :: ls)); [done|].
        intros [?|?]%elem_of_cons; done.
Qed.

Lemma first_sources_emptied (w : world) (ls : list loc) :
  (forall l, l ∈ ls -> sources_at w l = emptied (sources_at w l)) ->
  first_sources w ls = [].
Proof.
  induction ls as [|l ls IH]; intros Hall; simpl; [done|].
  assert (Hl := Hall l (list_elem_of_here _ _)). unfold sources_at in Hl.
  rewrite IH by (intros l' Hin; apply Hall; by right).
  destruct (heap w !! l) as [t|]; [|done]. simpl in Hl.
  destruct (last_sources (fields t)) as [[|s ss]|]; [done | discriminate | done].
Qed.

(** C8.  Right after [reset_sources], [get_last_sources] is the empty
    list, and every registered tool that has a [last_sources] attribute
    holds the empty list in it. *)
Theorem reset_sources_clears (m : ToolManager) (w : world) :
  get_last_sources m (reset_sources m w) = [] ∧
  forall l, l ∈ odict_values (SearchTools.tools m) ->
    sources_at (reset_sources m w) l = emptied (sources_at w l).
Proof.
  unfold get_last_sources, reset_sources. split.
  - apply first_sources_emptied. intros l Hin.
    rewrite sources_at_reset_all, decide_True by done. by rewrite emptied_idem.
  - intros l Hin. by rewrite sources_at_reset_all, decide_True.
Qed.

(** A search leaves two sources; the reset empties them. *)
Lemma reset_sources_clears_witness :
  get_last_sources live_manager searched_world
    = [ {| text := "Course 1 - Lesson 1";
           url := Some "https://example.com/course-1/lesson-1" |};
        {| text := "Course 1 - Lesson 2"; url := None |} ] ∧
  get_last_sources live_manager (reset_sources live_manager searched_world) = [] ∧
  sources_at (reset_sources live_manager searched_world) 0%nat = Some [].
Proof.
  split; [reflexivity|].
  destruct (reset_sources_clears live_manager searched_world) as [Hget Hall].
  split; [exact Hget|].
  exact (Hall 0%nat (list_elem_of_here 0%nat [])).
Defined.

(** C10.  A call of [CourseSearchTool.execute] that ends on the error
    branch or on the empty-result branch leaves the whole world, and so the
    sources that [get_last_sources] reads, unchanged; on the formatting
    path the tool's [last_sources] become the sources of the hits. *)
Theorem execute_keeps_sources (store : VectorStore.VectorStore) (l : loc) (t : Tool)
    (w : world) (kwargs : gmap string pyval) (query course_name lesson_number : pyval) :
  heap w !! l = Some t ->
  execute t = CourseSearchTool_execute store ->
  bind_search_args kwargs = Ret (query, course_name, lesson_number) ->
  let results := search store query course_name lesson_number in
  let w' := snd (call_execute l kwargs w) in
  (error_branch results || empty_branch results = true ->
     w' = w ∧ forall m, get_last_sources m w' = get_last_sources m w) ∧
  (error_branch results || empty_branch results = false ->
     sources_at w' l = Some (hit_sources store results)).
Proof.
  intros Hl Hex Hb results w'. subst w'. unfold call_execute. rewrite Hl, Hex.
  pose proof (CourseSearchTool_execute_branches store kwargs query course_name
                lesson_number (fields t) (random w) Hb) as Hbr.
  fold results in Hbr. cbv zeta in Hbr.
  split; intros Hcase.
  - assert (Hsame : exists res, CourseSearchTool_execute store kwargs (fields t, random w)
                                = (res, (fields t, random w))).
    { rewrite Hbr. destruct (error_branch results); [by eexists|].
      simpl in Hcase. rewrite Hcase. by eexists. }
    destruct Hsame as [res Hsame].
    rewrite (call_method_frame l t _ kwargs w res Hl Hsame). by split.
  - apply orb_false_iff in Hcase as [He Hm].
    unfold call_method. rewrite Hbr, He, Hm. unfold sources_at. simpl.
    by rewrite lookup_insert_eq.
Qed.

(** After a successful search, a failing search keeps the two sources. *)
Lemma execute_keeps_sources_witness :
  let kwargs : gmap string pyval := {[ "query" := PStr "broken" ]} in
  heap searched_world !! 0%nat
    = Some (set_fields (CourseSearchTool demo_store)
              (set_last_sources (fields (CourseSearchTool demo_store))
                 (hit_sources demo_store two_hits))) ∧
  error_branch (search demo_store (PStr "broken") PNone PNone) = true ∧
  fst (call_execute 0%nat kwargs searched_world) = Ret "Search error: index unavailable" ∧
  snd (call_execute 0%nat kwargs searched_world) = searched_world ∧
  get_last_sources live_manager (snd (call_execute 0%nat kwargs searched_world))
    = get_last_sources live_manager searched_world.
Proof.
  intros kwargs. split; [reflexivity|]. split; [reflexivity|]. split; [reflexivity|].
  destruct (execute_keeps_sources demo_store 0%nat _ searched_world kwargs
              (PStr "broken") PNone PNone eq_refl eq_refl eq_refl) as [Hkeep _].
  destruct (Hkeep eq_refl) as [Hw Hget]. split; [exact Hw | exact (Hget live_manager)].
Defined.

Lemma bind_lesson_zero (query : pyval) :
  bind_search_args {[ "query" := query; "lesson_number" := PInt 0 ]}
    = Ret (query, PNone, PInt 0).
Proof. reflexivity. Qed.

(** C5, at a search filtered on lesson 0.  Whenever the store finds
    nothing under that filter, the message of [CourseSearchTool.execute]
    names no filter, although the lesson number was handed to the search:
    the test on [lesson_number] is a test of truth, and 0 is false. *)
Theorem execute_lesson_zero_unnamed (store : VectorStore.VectorStore) (query : pyval)
    (self : tool_fields) (r : rng) :
  let results := search store query PNone (PInt 0) in
  error_branch results = false ->
  is_empty results = true ->
  CourseSearchTool_execute store {[ "query" := query; "lesson_number" := PInt 0 ]} (self, r)
    = (Ret "No relevant content found.", (self, r)).
Proof.
  intros results Herr Hempty.
  rewrite (CourseSearchTool_execute_branches store _ query PNone (PInt 0) self r
             (bind_lesson_zero query)).
  fold results. rewrite Herr. unfold empty_branch. unfold error_branch in Herr.
  by rewrite Herr, Hempty.
Qed.

(** A store that answers by the lesson filter: lesson 0 goes unnamed in the
    message, lesson 3 is named. *)
Lemma execute_lesson_zero_unnamed_witness :
  let self := fields (CourseSearchTool lesson_filter_store) in
  let kwargs : gmap string pyval :=
    {[ "query" := PStr "introduction"; "lesson_number" := PInt 0 ]} in
  is_empty (search lesson_filter_store (PStr "introduction") PNone PNone) = false ∧
  is_empty (search lesson_filter_store (PStr "introduction") PNone (PInt 0)) = true ∧
  CourseSearchTool_execute lesson_filter_store kwargs (self, [])
    = (Ret "No relevant content found.", (self, [])) ∧
  fst (CourseSearchTool_execute lesson_filter_store
         (<[ "lesson_number" := PInt 3 ]> kwargs) (self, []))
    = Ret "No relevant content found in lesson 3.".
Proof.
  intros self kwargs. split; [reflexivity|]. split; [reflexivity|].
  split; [|reflexivity].
  exact (execute_lesson_zero_unnamed lesson_filter_store (PStr "introduction") self []
           eq_refl eq_refl).
Defined.

(** ** The simulation path *)

Lemma simulate_tool_usage_returns (query query_lower : string)
    (tool_manager : option ToolManager) (s : gstate) :
  fst (simulate_tool_usage query query_lower tool_manager s) = Ret tt ∧
  calls (snd (simulate_tool_usage query query_lower tool_manager s)) = calls s.
Proof.
  unfold simulate_tool_usage.
  destruct tool_manager as [manager|]; [|done].
  destruct (any_in trigger_keywords query_lower); [|done].
  unfold swallow, lift_tool.
  by destruct (execute_tool _ _ _ _).
Qed.

(** The answer of the simulation path is decided by the lower-cased query
    alone: neither the registry nor the state has a part in it. *)
Lemma mock_response_text (self : AIGenerator) (query : string)
    (tool_manager : option ToolManager) (s : gstate) :
  fst (_generate_mock_response self query tool_manager s)
    = match_patterns (lower query) query_patterns.
Proof.
  unfold _generate_mock_response.
  change (fst (match simulate_tool_usage query (lower query) tool_manager s with
               | (Ret a, s') => lift_outcome (match_patterns (lower query) query_patterns) s'
               | (Raise e, s') => (Raise e, s')
               end) = match_patterns (lower query) query_patterns).
  destruct (simulate_tool_usage_returns query (lower query) tool_manager s) as [Hr _].
  destruct (simulate_tool_usage _ _ _ s) as [r s']. simpl in Hr. by rewrite Hr.
Qed.

(** The loop over the table answers with the first matching category. *)
Lemma match_patterns_first (query_lower : string) :
  match_patterns query_lower query_patterns
    = Ret (category_response (first_category query_lower) query_lower).
Proof.
  unfold first_category, query_patterns, category_response.
  cbn [match_patterns find fmap option_fmap option_map fst snd].
  destruct (contains "mcp" query_lower);
    repeat match goal with
    | |- context [any_in ?kws query_lower] => destruct (any_in kws query_lower)
    end; reflexivity.
Qed.

(** C9.  In mock mode the query "Give me the outline of the MCP course" is
    answered with the product outline and its five lesson headings, the
    query "What's the course outline?" with the generic module outline;
    every query is answered by the first category of the table with a
    keyword in the lower-cased query, so that case does not matter. *)
Theorem simulation_outline (anthropic : string -> Anthropic) (api_key model : string)
    (history : option string) (tools : option (list (list (string * jval))))
    (tool_manager : option ToolManager) (s : gstate) :
  let self := AIGenerator_init anthropic api_key model true in
  let answer query := fst (generate_response self query history tools tool_manager s) in
  answer "Give me the outline of the MCP course" = Ret mock_outline_MCP ∧
  occurrences "## Lesson " mock_outline_MCP = 5%nat ∧
  Forall (fun heading => contains heading mock_outline_MCP = true)
    ["## Lesson 1"; "## Lesson 2"; "## Lesson 3"; "## Lesson 4"; "## Lesson 5"] ∧
  answer "What's the course outline?" = Ret mock_outline_default ∧
  mock_outline_default ≠ mock_outline_MCP ∧
  contains "## Module 1" mock_outline_default = true ∧
  contains "Lesson" mock_outline_default = false ∧
  (forall query,
     answer query = Ret (category_response (first_category (lower query)) (lower query))) ∧
  (forall query query', lower query = lower query' -> answer query = answer query').
Proof.
  intros self answer.
  assert (Hanswer : forall query,
    answer query = Ret (category_response (first_category (lower query)) (lower query))).
  { intros query. subst answer self. unfold generate_response. simpl.
    by rewrite mock_response_text, match_patterns_first. }
  split; [rewrite Hanswer; reflexivity|].
  split; [reflexivity|].
  split; [repeat constructor|].
  split; [rewrite Hanswer; reflexivity|].
  split; [intros H; discriminate H|].
  split; [reflexivity|]. split; [reflexivity|].
  split; [exact Hanswer|].
  intros query query' Hlow. by rewrite !Hanswer, Hlow.
Qed.

(** Two spellings of one query receive one answer. *)
Lemma simulation_outline_witness :
  lower "Show me the OUTLINE of the Mcp course" = lower "show me the outline of the MCP course" ∧
  fst (generate_response mock_generator "Show me the OUTLINE of the Mcp course"
         None None (Some mock_manager) start)
    = fst (generate_response mock_generator "show me the outline of the MCP course"
             None None (Some mock_manager) start).
Proof.
  split; [reflexivity|].
  destruct (simulation_outline (fun _ => scripted_model []) "key" "claude" None None
              (Some mock_manager) start) as (_ & _ & _ & _ & _ & _ & _ & _ & Hcase).
  exact (Hcase "Show me the OUTLINE of the Mcp course"
               "show me the outline of the MCP course" eq_refl).
Defined.

(** ** The orchestrator *)

Lemma bind_eq {A B} (m : M A) (f : A -> M B) (s : gstate) :
  (m ≫= f) s
    = match m s with
      | (Ret a, s') => f a s'
      | (Raise e, s') => (Raise e, s')
      end.
Proof. reflexivity. Qed.

(** One tool call of the loop: either it returns and the loop goes on, or
    it raises and the loop ends. *)
Ltac tool_step s :=
  rewrite ?bind_eq; destruct (lift_tool _ s) as [[?result|?e] ?s'].

Lemma lift_tool_calls {A} (f : world -> outcome A * world) (s : gstate) :
  calls (snd (lift_tool f s)) = calls s.
Proof. unfold lift_tool. by destruct (f (tool_world s)). Qed.

Lemma first_text_state (blocks : list content_block) (s : gstate) :
  snd (first_text blocks s) = s.
Proof. by destruct blocks as [|[text|id name input] rest]. Qed.

(** The loop over the blocks issues no model call. *)
Lemma run_tool_calls_calls (tm : ToolManager) (blocks : list content_block) :
  forall acc s, calls (snd (run_tool_calls tm blocks acc s)) = calls s.
Proof.
  induction blocks as [|b rest IH]; intros acc s; [reflexivity|].
  destruct b as [t|id name input]; simpl; [apply IH|].
  pose proof (lift_tool_calls (call_execute_tool tm name input) s) as Hc.
  tool_step s; simpl in *; [|exact Hc].
  rewrite IH. exact Hc.
Qed.



(** The loop on a response split in two: the second part runs on what the
    first part leaves, unless the first part raised. *)
Lemma run_tool_calls_app (tm : ToolManager) (pre post : list content_block) :
  forall acc s,
  run_tool_calls tm (pre ++ post) acc s
    = match run_tool_calls tm pre acc s with
      | (Ret rs, s1) => run_tool_calls tm post rs s1
      | (Raise e, s1) => (Raise e, s1)
      end.
Proof.
  induction pre as [|b pre IH]; intros acc s; [reflexivity|].
  destruct b as [t|id name input]; simpl; [apply IH|].
  tool_step s; [apply IH | reflexivity].
Qed.

(** After the loop, the follow-up call is issued on the messages built
    from its results. *)
Lemma handle_after_loop (self : AIGenerator) (client : Anthropic) (resp : Message)
    (params : api_params) (tm : ToolManager) (s s1 : gstate) (rs : list tool_result) :
  run_tool_calls tm (response_content resp) [] s = (Ret rs, s1) ->
  let final_params :=
    base_params self (follow_up_messages resp params rs) (system params) in
  calls (snd (_handle_tool_execution self client resp params tm s))
    = calls s ++ [final_params] ∧
  tool_world (snd (_handle_tool_execution self client resp params tm s))
    = tool_world s1.
Proof.
  intros Hrun final_params. unfold _handle_tool_execution.
  rewrite bind_eq, Hrun, bind_eq. fold final_params. unfold create.
  pose proof (run_tool_calls_calls tm (response_content resp) [] s) as Hc.
  rewrite Hrun in Hc. simpl in Hc.
  destruct (messages_create client _ final_params) as [final|e]; simpl.
  - rewrite first_text_state. simpl. by rewrite Hc.
  - by rewrite Hc.
Qed.

(** C1 (as amended).  [_handle_tool_execution] does not catch what a tool
    call raises: the exception of the first call that raises reaches the
    caller, the remaining blocks are not executed and no follow-up model
    call is issued.  When every call returns, the follow-up call is issued
    on the collected results. *)
Theorem tool_exception_propagates (self : AIGenerator) (client : Anthropic)
    (resp : Message) (params : api_params) (tm : ToolManager) (s : gstate) :
  (forall pre id name input post rs s1 e w2,
     response_content resp = pre ++ ToolUseBlock id name input :: post ->
     run_tool_calls tm pre [] s = (Ret rs, s1) ->
     call_execute_tool tm name input (tool_world s1) = (Raise e, w2) ->
     _handle_tool_execution self client resp params tm s
       = (Raise e, {| tool_world := w2; calls := calls s |})) ∧
  (forall rs s1,
     run_tool_calls tm (response_content resp) [] s = (Ret rs, s1) ->
     calls (snd (_handle_tool_execution self client resp params tm s))
       = calls s ++ [base_params self (follow_up_messages resp params rs) (system params)]).
Proof.
  split.
  - intros pre id name input post rs s1 e w2 Hsplit Hpre Hcall.
    unfold _handle_tool_execution.
    rewrite bind_eq, Hsplit, run_tool_calls_app, Hpre. simpl.
    rewrite bind_eq. unfold lift_tool. rewrite Hcall.
    pose proof (run_tool_calls_calls tm pre [] s) as Hc.
    rewrite Hpre in Hc. simpl in Hc. by rewrite Hc.
  - intros rs s1 Hrun.
    exact (proj1 (handle_after_loop self client resp params tm s s1 rs Hrun)).
Qed.

(** The second of three requests raises: the third is not run and no
    follow-up call is made. *)
Lemma tool_exception_propagates_witness :
  run_tool_calls live_manager [search_call "toolu_1" "machine learning"] []
      (after_first_call first_params)
    = (Ret [ {| result_type := "tool_result"; tool_use_id := "toolu_1";
                result_content := formatted_hits demo_store two_hits |} ],
       {| tool_world := searched_world; calls := [first_params] |}) ∧
  call_execute_tool live_manager "search_course_content" ∅ searched_world
    = (Raise TypeError, searched_world) ∧
  _handle_tool_execution (live_generator []) (scripted_model []) faulty_request
      first_params live_manager (after_first_call first_params)
    = (Raise TypeError, {| tool_world := searched_world; calls := [first_params] |}).
Proof.
  assert (Hpre : run_tool_calls live_manager [search_call "toolu_1" "machine learning"] []
                   (after_first_call first_params)
                 = (Ret [ {| result_type := "tool_result"; tool_use_id := "toolu_1";
                             result_content := formatted_hits demo_store two_hits |} ],
                    {| tool_world := searched_world; calls := [first_params] |}))
    by reflexivity.
  assert (Hcall : call_execute_tool live_manager "search_course_content" ∅ searched_world
                  = (Raise TypeError, searched_world)) by reflexivity.
  split; [exact Hpre|]. split; [exact Hcall|].
  exact (proj1 (tool_exception_propagates (live_generator []) (scripted_model [])
                  faulty_request first_params live_manager (after_first_call first_params))
           [search_call "toolu_1" "machine learning"] "toolu_2" "search_course_content" ∅
           [search_call "toolu_3" "broken"] _ _ TypeError searched_world
           eq_refl Hpre Hcall).
Defined.

(** C1, as stated, fails: the model asks for a search without the required
    [query], the call raises a TypeError, and [generate_response] ends with
    that exception after its first model call; no follow-up call is made. *)
Lemma tool_exception_reaches_caller :
  let outcome :=
    generate_response
      (live_generator [ToolUseBlock "toolu_1" "search_course_content" ∅])
      "What is in lesson 1?" None (Some [course_search_definition])
      (Some live_manager) start in
  fst outcome = Raise TypeError ∧ calls (snd outcome) = [first_params].
Proof. split; reflexivity. Qed.




Lemma handle_loop_raises (self : AIGenerator) (client : Anthropic) (resp : Message)
    (params : api_params) (tm : ToolManager) (s s1 : gstate) (e : exn) :
  run_tool_calls tm (response_content resp) [] s = (Raise e, s1) ->
  _handle_tool_execution self client resp params tm s = (Raise e, s1).
Proof. intros Hrun. unfold _handle_tool_execution. by rewrite bind_eq, Hrun. Qed.

Lemma mock_response_calls (self : AIGenerator) (query : string)
    (tool_manager : option ToolManager) (s : gstate) :
  calls (snd (_generate_mock_response self query tool_manager s)) = calls s.
Proof.
  unfold _generate_mock_response.
  change (calls (snd (match simulate_tool_usage query (lower query) tool_manager s with
                      | (Ret a, s') =>
                          lift_outcome (match_patterns (lower query) query_patterns) s'
                      | (Raise e, s') => (Raise e, s')
                      end)) = calls s).
  destruct (simulate_tool_usage_returns query (lower query) tool_manager s) as [_ Hc].
  by destruct (simulate_tool_usage _ _ _ s) as [[[]|e] s'].
Qed.

(** C4.  A query issues no, one or two model calls.  The second call, when
    there is one, has neither tool declarations nor a tool choice and the
    system content of the first, which is the prompt with the history. *)
Theorem at_most_two_model_calls (self : AIGenerator) (query : string)
    (history : option string) (tools : option (list (list (string * jval))))
    (tool_manager : option ToolManager) (s : gstate) :
  exists new,
    calls (snd (generate_response self query history tools tool_manager s))
      = calls s ++ new ∧
    (new = [] ∨
     (exists p1, new = [p1] ∧ system p1 = system_content history) ∨
     (exists p1 p2, new = [p1; p2] ∧ system p1 = system_content history ∧
        api_tools p2 = None ∧ tool_choice p2 = None ∧ system p2 = system p1)).
Proof.
  unfold generate_response.
  destruct (AIGen.mock_mode self).
  { exists []. rewrite mock_response_calls, app_nil_r. by split; [|left]. }
  set (plain := base_params self [ {| role := "user"; content := StrContent query |} ]
                  (system_content history)).
  set (params := match tools with Some (d :: ds) => with_tools plain (d :: ds) | _ => plain end).
  assert (Hsys : system params = system_content history).
  { subst params plain. by destruct tools as [[|d ds]|]. }
  destruct (client self) as [c|]; [|exists []; rewrite app_nil_r; by split; [|left]].
  rewrite bind_eq. unfold create at 1.
  set (s1 := {| tool_world := tool_world s; calls := calls s ++ [params] |}).
  assert (Hone : forall blocks, exists new,
            calls (snd (first_text blocks s1)) = calls s ++ new ∧
            (new = [] ∨ (exists p1, new = [p1] ∧ system p1 = system_content history) ∨
             (exists p1 p2, new = [p1; p2] ∧ system p1 = system_content history ∧
                api_tools p2 = None ∧ tool_choice p2 = None ∧ system p2 = system p1))).
  { intros blocks. exists [params]. rewrite first_text_state.
    split; [done|]. right; left. by exists params. }
  destruct (messages_create c (length (calls s)) params) as [response|e].
  2:{ exists [params]. split; [done|]. right; left. by exists params. }
  destruct tool_manager as [manager|]; [|apply Hone].
  destruct (String.eqb (stop_reason response) "tool_use"); [|apply Hone].
  destruct (run_tool_calls manager (response_content response) [] s1) as [[rs|e] s2] eqn:Hrun.
  - destruct (handle_after_loop self c response params manager s1 s2 rs Hrun) as [Hcalls _].
    eexists [params; _]. rewrite Hcalls. subst s1. simpl. rewrite <- app_assoc.
    split; [reflexivity|]. right; right. eexists _, _. by repeat split.
  - rewrite (handle_loop_raises self c response params manager s1 s2 e Hrun).
    pose proof (run_tool_calls_calls manager (response_content response) [] s1) as Hc.
    rewrite Hrun in Hc. simpl in Hc. exists [params]. split; [done|].
    right; left. by exists params.
Qed.

(** * Further properties *)

Import Cover.

(** ** The registry as a dictionary *)

Lemma key_eqb_eq (a b : jval) : key_eqb a b = true -> a = b.
Proof.
  destruct a, b; simpl; try discriminate; intros H.
  - reflexivity.
  - by apply String.eqb_eq in H as ->.
  - by apply Z.eqb_eq in H as ->.
Qed.

Lemma key_eqb_refl (k : jval) : hashable k = true -> key_eqb k k = true.
Proof.
  destruct k; simpl; try discriminate; intros _.
  - reflexivity.
  - apply String.eqb_refl.
  - apply Z.eqb_refl.
Qed.

Lemma odict_get_set_other {V} (k k' : jval) (v : V) (d : list (jval * V)) :
  key_eqb k' k = false -> odict_get k' (odict_set k v d) = odict_get k' d.
Proof.
  intros Hne. induction d as [|[j vj] d IH]; simpl.
  - by rewrite Hne.
  - destruct (key_eqb k j) eqn:E; simpl.
    + apply key_eqb_eq in E as <-. by rewrite Hne.
    + by rewrite IH.
Qed.

Lemma odict_set_keys {V} (k : jval) (v : V) (d : list (jval * V)) :
  map fst (odict_set k v d)
    = match odict_get k d with
      | Some _ => map fst d
      | None => map fst d ++ [k]
      end.
Proof.
  induction d as [|[j vj] d IH]; simpl; [done|].
  destruct (key_eqb k j); simpl; [done|].
  rewrite IH. by destruct (odict_get k d).
Qed.

Lemma odict_set_values_fresh {V} (k : jval) (v : V) (d : list (jval * V)) :
  odict_get k d = None -> odict_values (odict_set k v d) = odict_values d ++ [v].
Proof.
  unfold odict_values. induction d as [|[j vj] d IH]; simpl; [done|].
  destruct (key_eqb k j); simpl; [discriminate|].
  intros H. by rewrite IH.
Qed.

Lemma odict_get_none_keys {V} (k : jval) (d : list (jval * V)) :
  hashable k = true -> odict_get k d = None -> k ∉ map fst d.
Proof.
  intros Hk. induction d as [|[j vj] d IH]; simpl; intros Hget.
  - apply not_elem_of_nil.
  - destruct (key_eqb k j) eqn:E; [discriminate|].
    intros [->|Hin]%elem_of_cons.
    + by rewrite key_eqb_refl in E.
    + by apply IH.
Qed.

(** What a successful registration needs and does. *)
Lemma register_tool_success (m : ToolManager) (l : loc) (w : world) (t : Tool)
    (N : string) :
  heap w !! l = Some t ->
  dict_get "name" (get_tool_definition t) = JStr N ->
  N <> EmptyString ->
  register_tool m l w
    = (Ret tt, {| SearchTools.tools := odict_set (JStr N) l (SearchTools.tools m);
                  SearchTools.mock_mode := SearchTools.mock_mode m |}).
Proof.
  intros Hl Hn Hne. unfold register_tool. rewrite Hl, Hn. simpl.
  unfold str_truthy. destruct (String.eqb N EmptyString) eqn:E; [|done].
  by apply String.eqb_eq in E.
Qed.

(** X1.  Registration and lookup: a tool whose declaration carries a
    non-empty name is accepted, is then found under that name, and the
    tools found under every other name are the ones found before. *)
Theorem register_then_lookup (m : ToolManager) (l : loc) (w : world) (t : Tool)
    (N : string) :
  heap w !! l = Some t ->
  dict_get "name" (get_tool_definition t) = JStr N ->
  N <> EmptyString ->
  exists m',
    register_tool m l w = (Ret tt, m') ∧
    SearchTools.mock_mode m' = SearchTools.mock_mode m ∧
    odict_get (JStr N) (SearchTools.tools m') = Some l ∧
    forall N', N' <> N ->
      odict_get (JStr N') (SearchTools.tools m') = odict_get (JStr N') (SearchTools.tools m).
Proof.
  intros Hl Hn Hne. eexists. split; [by apply (register_tool_success m l w t N)|].
  simpl. split; [done|]. split.
  - apply odict_get_set. simpl. apply String.eqb_refl.
  - intros N' Hdiff. apply odict_get_set_other. simpl.
    by apply String.eqb_neq.
Qed.

(** The weather tool joins the retrieval tool; both are found. *)
Lemma register_then_lookup_witness :
  heap campus_world !! 2%nat = Some weather_tool ∧
  register_tool live_manager 2%nat campus_world = (Ret tt, campus_manager) ∧
  odict_get (JStr "get_weather") (SearchTools.tools campus_manager) = Some 2%nat ∧
  odict_get (JStr "search_course_content") (SearchTools.tools campus_manager) = Some 0%nat.
Proof.
  split; [reflexivity|].
  destruct (register_then_lookup live_manager 2%nat campus_world weather_tool
              "get_weather" eq_refl eq_refl ltac:(discriminate))
    as (m' & Hreg & _ & Hnew & Hold).
  assert (Hm : m' = campus_manager) by (unfold campus_manager; by rewrite Hreg).
  subst m'. split; [exact Hreg|]. split; [exact Hnew|].
  rewrite (Hold "search_course_content" ltac:(discriminate)). reflexivity.
Defined.



(** X3.  Names stay unique: whatever [register_tool] is given and however
    it ends, a registry without a repeated name has none afterwards. *)
Theorem register_keeps_names_unique (m : ToolManager) (l : loc) (w : world) :
  NoDup (registry_keys m) ->
  NoDup (registry_keys (snd (register_tool m l w))).
Proof.
  intros Hnd. unfold register_tool, registry_keys in *.
  destruct (heap w !! l) as [t|]; [|done].
  set (name := dict_get "name" (get_tool_definition t)).
  destruct (negb (jtruthy name)); [done|].
  destruct (hashable name) eqn:Hh; [|done].
  simpl. rewrite odict_set_keys.
  destruct (odict_get name (SearchTools.tools m)) eqn:Hget; [done|].
  apply NoDup_app. split; [done|]. split.
  - intros k Hin ->%list_elem_of_singleton.
    by apply (odict_get_none_keys name (SearchTools.tools m) Hh Hget).
  - apply NoDup_singleton.
Qed.

(** Three registrations, two of them under one name: two names. *)
Lemma register_keeps_names_unique_witness :
  NoDup (registry_keys campus_manager) ∧
  registry_keys (snd (register_tool campus_manager 3%nat campus_world))
    = [ JStr "search_course_content"; JStr "get_weather" ] ∧
  NoDup (registry_keys (snd (register_tool campus_manager 3%nat campus_world))).
Proof.
  assert (Hnd : NoDup (registry_keys campus_manager)).
  { apply NoDup_cons. split.
    - intros [H|H]%elem_of_cons; [discriminate H | by apply elem_of_nil in H].
    - apply NoDup_singleton. }
  split; [exact Hnd|]. split; [reflexivity|].
  exact (register_keeps_names_unique campus_manager 3%nat campus_world Hnd).
Defined.

(** X4.  Declarations are listed in registration order: a tool registered
    under a new name adds its declaration at the end of the list. *)
Theorem register_appends_declaration (m m' : ToolManager) (l : loc) (w : world)
    (t : Tool) :
  heap w !! l = Some t ->
  odict_get (dict_get "name" (get_tool_definition t)) (SearchTools.tools m) = None ->
  register_tool m l w = (Ret tt, m') ->
  get_tool_definitions m' w = get_tool_definitions m w ++ [get_tool_definition t].
Proof.
  intros Hl Hfresh. unfold register_tool. rewrite Hl.
  destruct (negb (jtruthy _)); [discriminate|].
  destruct (hashable _); [|discriminate].
  intros [= <-]. unfold get_tool_definitions. simpl.
  rewrite odict_set_values_fresh by done.
  rewrite omap_app. simpl. by rewrite Hl.
Qed.

Lemma register_appends_declaration_witness :
  heap campus_world !! 2%nat = Some weather_tool ∧
  register_tool live_manager 2%nat campus_world = (Ret tt, campus_manager) ∧
  get_tool_definitions campus_manager campus_world
    = [ course_search_definition; get_tool_definition weather_tool ].
Proof.
  split; [reflexivity|]. split; [reflexivity|].
  exact (register_appends_declaration live_manager campus_manager 2%nat campus_world
           weather_tool eq_refl eq_refl eq_refl).
Defined.

(** ** Reading and resetting the sources *)

Lemma first_sources_none (w : world) (ls : list loc) :
  (forall l, l ∈ ls -> holds_no_sources w l) -> first_sources w ls = [].
Proof.
  induction ls as [|l ls IH]; intros Hall; simpl; [done|].
  assert (Hl := Hall l (list_elem_of_here _ _)).
  rewrite IH by (intros l' Hin; apply Hall; by right).
  unfold holds_no_sources, sources_at in Hl.
  destruct (heap w !! l) as [t|]; [|done]. simpl in Hl.
  destruct (last_sources (fields t)) as [[|s ss]|]; [done| |done].
  by destruct Hl.
Qed.

Lemma first_sources_app (w : world) (pre post : list loc) :
  (forall l, l ∈ pre -> holds_no_sources w l) ->
  first_sources w (pre ++ post) = first_sources w post.
Proof.
  induction pre as [|l pre IH]; intros Hall; simpl; [done|].
  assert (Hl := Hall l (list_elem_of_here _ _)).
  rewrite IH by (intros l' Hin; apply Hall; by right).
  unfold holds_no_sources, sources_at in Hl.
  destruct (heap w !! l) as [t|]; [|done]. simpl in Hl.
  destruct (last_sources (fields t)) as [[|s ss]|]; [done| |done].
  by destruct Hl.
Qed.

(** X5.  [get_last_sources] answers with the sources of the first tool, in
    registration order, that holds any: tools registered before it hold
    none, tools registered after it are not looked at. *)
Theorem first_sources_win (m : ToolManager) (w : world) (pre post : list loc)
    (l : loc) (s : source) (ss : list source) :
  odict_values (SearchTools.tools m) = pre ++ l :: post ->
  (forall l', l' ∈ pre -> holds_no_sources w l') ->
  sources_at w l = Some (s :: ss) ->
  get_last_sources m w = s :: ss.
Proof.
  intros Hvals Hpre Hl. unfold get_last_sources. rewrite Hvals.
  rewrite first_sources_app by done. simpl.
  unfold sources_at in Hl. destruct (heap w !! l) as [t|]; [|discriminate].
  simpl in Hl. by rewrite Hl.
Qed.

(** The retrieval tool has not searched yet; the weather tool, registered
    after it, is the first with a source. *)
Lemma first_sources_win_witness :
  odict_values (SearchTools.tools campus_manager) = [0%nat] ++ 2%nat :: [] ∧
  sources_at campus_world 0%nat = Some [] ∧
  get_last_sources campus_manager campus_world
    = [ {| text := "Weather service"; url := None |} ].
Proof.
  split; [reflexivity|]. split; [reflexivity|].
  apply (first_sources_win campus_manager campus_world [0%nat] [] 2%nat);
    [reflexivity | | reflexivity].
  intros l' ->%list_elem_of_singleton. by right.
Defined.

(** X6.  [get_last_sources] is empty exactly when no registered tool
    holds a source. *)
Theorem no_sources_iff (m : ToolManager) (w : world) :
  get_last_sources m w = [] <->
  forall l, l ∈ odict_values (SearchTools.tools m) -> holds_no_sources w l.
Proof.
  unfold get_last_sources. split; [|apply first_sources_none].
  induction (odict_values (SearchTools.tools m)) as [|l ls IH]; simpl.
  - intros _ l Hin. by apply elem_of_nil in Hin.
  - intros Hget l' Hin. unfold holds_no_sources, sources_at.
    destruct (heap w !! l) as [t|] eqn:Hl.
    + destruct (last_sources (fields t)) as [[|s ss]|] eqn:Hs; [| discriminate |].
      * apply elem_of_cons in Hin as [->|Hin]; [|by apply IH].
        rewrite Hl. simpl. by right.
      * apply elem_of_cons in Hin as [->|Hin]; [|by apply IH].
        rewrite Hl. simpl. by left.
    + apply elem_of_cons in Hin as [->|Hin]; [|by apply IH].
      rewrite Hl. by left.
Qed.

Lemma no_sources_iff_witness :
  get_last_sources live_manager demo_world = [] ∧
  holds_no_sources demo_world 0%nat.
Proof.
  split; [reflexivity|].
  exact (proj1 (no_sources_iff live_manager demo_world) eq_refl 0%nat
           (list_elem_of_here 0%nat [])).
Defined.

(** X7.  A search through the registry that finds hits: the answer is the
    formatted hits, and [get_last_sources] then returns their sources,
    when the retrieval tool is the first of the registry. *)
Theorem search_then_sources (m : ToolManager) (N : string) (l : loc)
    (rest : list (jval * loc)) (store : VectorStore.VectorStore) (t : Tool)
    (w : world) (kwargs : gmap string pyval) (query course_name lesson_number : pyval) :
  SearchTools.tools m = (JStr N, l) :: rest ->
  SearchTools.mock_mode m = false ->
  heap w !! l = Some t ->
  execute t = CourseSearchTool_execute store ->
  bind_search_args kwargs = Ret (query, course_name, lesson_number) ->
  let results := search store query course_name lesson_number in
  error_branch results = false ->
  is_empty results = false ->
  hit_sources store results <> [] ->
  fst (execute_tool m N kwargs w) = Ret (formatted_hits store results) ∧
  get_last_sources m (snd (execute_tool m N kwargs w)) = hit_sources store results.
Proof.
  intros Htools Hmode Hl Hex Hb results Herr Hempty Hhits.
  unfold execute_tool. rewrite Htools. simpl. rewrite String.eqb_refl, Hl, Hmode.
  unfold call_method. rewrite Hex.
  rewrite (CourseSearchTool_execute_branches store kwargs query course_name
             lesson_number (fields t) (random w) Hb).
  fold results. rewrite Herr. unfold empty_branch.
  unfold error_branch in Herr. rewrite Herr, Hempty. simpl.
  split; [done|]. unfold get_last_sources. rewrite Htools. simpl.
  rewrite lookup_insert_eq. simpl.
  by destruct (hit_sources store results).
Qed.

Lemma search_then_sources_witness :
  let kwargs : gmap string pyval := {[ "query" := PStr "machine learning" ]} in
  fst (execute_tool campus_manager "search_course_content" kwargs campus_world)
    = Ret (formatted_hits demo_store two_hits) ∧
  get_last_sources campus_manager
      (snd (execute_tool campus_manager "search_course_content" kwargs campus_world))
    = [ {| text := "Course 1 - Lesson 1";
           url := Some "https://example.com/course-1/lesson-1" |};
        {| text := "Course 1 - Lesson 2"; url := None |} ].
Proof.
  intros kwargs.
  exact (search_then_sources campus_manager "search_course_content" 0%nat
           [(JStr "get_weather", 2%nat)] demo_store (CourseSearchTool demo_store)
           campus_world kwargs (PStr "machine learning") PNone PNone
           eq_refl eq_refl eq_refl eq_refl eq_refl eq_refl eq_refl
           ltac:(discriminate)).
Defined.

Lemma reset_tool_no_sources (w : world) (l : loc) :
  holds_no_sources w l -> reset_tool w l = w.
Proof.
  unfold holds_no_sources, sources_at, reset_tool.
  destruct (heap w !! l) as [t|] eqn:Hl; [|done]. simpl.
  destruct (last_sources (fields t)) as [ss|] eqn:Hs; [|done].
  intros [H|[= ->]]; [discriminate|].
  destruct w as [h r], t as [d e em [ls ms]]. simpl in *. subst ls.
  unfold set_tool, set_fields, set_last_sources. simpl. by rewrite insert_id.
Qed.

Lemma reset_tool_heap (w : world) (l l' : loc) :
  heap (reset_tool w l') !! l
    = (fun t => if decide (l = l')
                then match last_sources (fields t) with
                     | Some _ => set_fields t (set_last_sources (fields t) [])
                     | None => t
                     end
                else t) <$> heap w !! l.
Proof.
  unfold reset_tool.
  destruct (heap w !! l') as [t'|] eqn:Hl'.
  - destruct (last_sources (fields t')) as [ss|] eqn:Hs; simpl.
    + destruct (decide (l = l')) as [->|Hne].
      * rewrite lookup_insert_eq, Hl'. simpl. by rewrite Hs.
      * rewrite lookup_insert_ne by done. by destruct (heap w !! l).
    + destruct (decide (l = l')) as [->|Hne].
      * rewrite Hl'. simpl. by rewrite Hs.
      * by destruct (heap w !! l).
  - destruct (decide (l = l')) as [->|Hne]; [by rewrite Hl'|].
    by destruct (heap w !! l).
Qed.


Lemma same_but_sources_refl (t : Tool) : same_but_sources t t.
Proof. by repeat split. Qed.

Lemma sources_only_refl (w : world) : sources_only w w.
Proof.
  split; [done|]. intros l. destruct (heap w !! l) as [t|]; [|done].
  exists t. split; [done | apply same_but_sources_refl].
Qed.

Lemma sources_only_trans (w1 w2 w3 : world) :
  sources_only w1 w2 -> sources_only w2 w3 -> sources_only w1 w3.
Proof.
  intros [Hr1 H1] [Hr2 H2]. split; [congruence|]. intros l.
  specialize (H1 l). specialize (H2 l).
  destruct (heap w1 !! l) as [t1|].
  - destruct H1 as (t2 & Hl2 & Ha & Hb & Hc & Hd). rewrite Hl2 in H2.
    destruct H2 as (t3 & Hl3 & Ha' & Hb' & Hc' & Hd').
    exists t3. split; [done|]. repeat split; congruence.
  - by rewrite H1 in H2.
Qed.

Lemma reset_tool_sources_only (w : world) (l' : loc) : sources_only w (reset_tool w l').
Proof.
  split.
  - unfold reset_tool. destruct (heap w !! l') as [t|]; [|done].
    by destruct (last_sources (fields t)).
  - intros l. rewrite reset_tool_heap.
    destruct (heap w !! l) as [t|]; [|done]. simpl. eexists. split; [done|].
    destruct (decide (l = l')); [|apply same_but_sources_refl].
    destruct (last_sources (fields t)); by repeat split.
Qed.

Lemma reset_all_sources_only (ls : list loc) :
  forall w, sources_only w (foldl reset_tool w ls).
Proof.
  induction ls as [|l ls IH]; intros w; [apply sources_only_refl|].
  simpl. eapply sources_only_trans; [apply reset_tool_sources_only | apply IH].
Qed.

Lemma reset_all_outside (ls : list loc) : forall w l,
  l ∉ ls -> heap (foldl reset_tool w ls) !! l = heap w !! l.
Proof.
  induction ls as [|l' ls IH]; intros w l Hout; [done|].
  simpl. rewrite IH by (intros Hin; apply Hout; by right).
  rewrite reset_tool_heap. destruct (heap w !! l) as [t|]; [|done]. simpl.
  rewrite decide_False; [done|]. intros ->. apply Hout. by left.
Qed.

Lemma sources_only_definitions (w w' : world) (m : ToolManager) :
  sources_only w w' -> get_tool_definitions m w' = get_tool_definitions m w.
Proof.
  intros [_ H]. unfold get_tool_definitions.
  induction (odict_values (SearchTools.tools m)) as [|l ls IH]; [done|].
  simpl. specialize (H l).
  destruct (heap w !! l) as [t|].
  - destruct H as (t' & -> & Hd & _). simpl. rewrite Hd. f_equal. exact IH.
  - rewrite H. exact IH.
Qed.

(** X8.  [reset_sources] changes nothing but sources: the random
    generator, the objects outside the registry, and the declaration, the
    methods and the mock sources of every object are as before, so the
    declarations any registry lists are the same. *)
Theorem reset_sources_frame (m : ToolManager) (w : world) :
  sources_only w (reset_sources m w) ∧
  (forall l, l ∉ odict_values (SearchTools.tools m) ->
     heap (reset_sources m w) !! l = heap w !! l) ∧
  forall m', get_tool_definitions m' (reset_sources m w) = get_tool_definitions m' w.
Proof.
  unfold reset_sources. split; [apply reset_all_sources_only|]. split.
  - intros l Hout. by apply reset_all_outside.
  - intros m'. apply sources_only_definitions, reset_all_sources_only.
Qed.

(** The weather tool is outside the registry of the retrieval tool and
    keeps its source through a reset of that registry. *)
Lemma reset_sources_frame_witness :
  (2%nat ∉ odict_values (SearchTools.tools live_manager)) ∧
  heap (reset_sources live_manager campus_world) !! 2%nat = Some weather_tool ∧
  get_tool_definitions campus_manager (reset_sources live_manager campus_world)
    = [ course_search_definition; get_tool_definition weather_tool ].
Proof.
  assert (Hout : 2%nat ∉ odict_values (SearchTools.tools live_manager)).
  { intros [H|H]%elem_of_cons; [discriminate H | by apply elem_of_nil in H]. }
  destruct (reset_sources_frame live_manager campus_world) as (_ & Hframe & Hdefs).
  split; [exact Hout|]. split.
  - exact (eq_trans (Hframe 2%nat Hout) eq_refl).
  - exact (eq_trans (Hdefs campus_manager) eq_refl).
Defined.

Lemma emptied_no_sources (w : world) (l : loc) (o : option (list source)) :
  sources_at w l = emptied o -> holds_no_sources w l.
Proof. unfold holds_no_sources. intros ->. destruct o; [by right | by left]. Qed.

Lemma reset_all_no_sources (ls : list loc) : forall w,
  (forall l, l ∈ ls -> holds_no_sources w l) -> foldl reset_tool w ls = w.
Proof.
  induction ls as [|l ls IH]; intros w Hall; [done|].
  simpl. rewrite reset_tool_no_sources by (apply Hall; by left).
  apply IH. intros l' Hin. apply Hall. by right.
Qed.

(** X9.  A second reset right after a reset changes nothing. *)
Theorem reset_sources_twice (m : ToolManager) (w : world) :
  reset_sources m (reset_sources m w) = reset_sources m w.
Proof.
  unfold reset_sources. apply reset_all_no_sources. intros l Hin.
  apply (emptied_no_sources _ l (sources_at w l)).
  by rewrite sources_at_reset_all, decide_True.
Qed.

(** ** The retrieval tool: formatting, mock search and arguments *)

Lemma append_assoc (a b c : string) : (a +:+ b) +:+ c = a +:+ (b +:+ c).
Proof.
  induction a as [|x a IH]; [done|].
  change (String x ((a +:+ b) +:+ c) = String x (a +:+ (b +:+ c))). by rewrite IH.
Qed.

(** X10.  For every hit, the label of the source is the text between the
    brackets of the header.  A hit without a lesson number gets a label
    without lesson and no link.  A link, where there is one, is the
    non-empty answer of the store for a hit with a lesson number and a
    course title other than "unknown". *)
Theorem source_mirrors_header (store : VectorStore.VectorStore) (doc : string)
    (m : meta) :
  let block := fst (format_hit store (doc, m)) in
  let src := snd (format_hit store (doc, m)) in
  let title := default "unknown" (course_title m) in
  block = "[" +:+ text src +:+ "]" +:+ nl +:+ doc ∧
  (lesson_number m = None -> text src = title ∧ url src = None) ∧
  (forall link, url src = Some link ->
     link <> EmptyString ∧ title <> "unknown" ∧
     exists n, lesson_number m = Some n ∧ get_lesson_link store title n = Some link).
Proof.
  destruct m as [ct [n|]]; simpl; split.
  - by rewrite !append_assoc.
  - split; [discriminate|]. intros link.
    destruct (String.eqb (default "unknown" ct) "unknown") eqn:E; simpl; [discriminate|].
    destruct (get_lesson_link store (default "unknown" ct) n) as [k|] eqn:Hk;
      simpl; [|discriminate].
    unfold str_truthy. destruct (String.eqb k EmptyString) eqn:Ek; simpl; [discriminate|].
    intros [= <-]. split; [by apply String.eqb_neq|]. split; [by apply String.eqb_neq|].
    by exists n.
  - by rewrite !append_assoc.
  - split; [done|]. discriminate.
Qed.

(** Lesson 1 of the course has a link, a hit without a lesson has none. *)
Lemma source_mirrors_header_witness :
  format_hit demo_store
      ("Lesson one text.", {| course_title := Some "Course 1"; lesson_number := Some 1%Z |})
    = ("[Course 1 - Lesson 1]" +:+ nl +:+ "Lesson one text.",
       {| text := "Course 1 - Lesson 1";
          url := Some "https://example.com/course-1/lesson-1" |}) ∧
  get_lesson_link demo_store "Course 1" 1%Z = Some "https://example.com/course-1/lesson-1" ∧
  snd (format_hit demo_store
         ("Overview.", {| course_title := Some "Course 1"; lesson_number := None |}))
    = {| text := "Course 1"; url := None |}.
Proof.
  split; [reflexivity|].
  destruct (source_mirrors_header demo_store "Lesson one text."
              {| course_title := Some "Course 1"; lesson_number := Some 1%Z |})
    as (_ & _ & Hlink).
  destruct (Hlink "https://example.com/course-1/lesson-1" eq_refl)
    as (_ & _ & n & Hn & Hget).
  injection Hn as <-. split; [exact Hget|].
  destruct (source_mirrors_header demo_store "Overview."
              {| course_title := Some "Course 1"; lesson_number := None |})
    as (_ & Hnone & _).
  destruct (Hnone eq_refl) as [Htext Hurl].
  destruct (format_hit demo_store _) as [block [t u]]. simpl in *. by subst.
Defined.

Lemma random_sample_submseteq {A} (k : nat) : forall (population : list A) (r : rng),
  fst (random_sample k population r) ⊆+ population.
Proof.
  induction k as [|k IH]; intros population r; simpl; [apply submseteq_nil_l|].
  destruct (population !! _) as [x|] eqn:Hx; [|apply submseteq_nil_l].
  specialize (IH (delete (hd 0%nat r mod length population)%nat population) (tl r)).
  destruct (random_sample k _ (tl r)) as [rest r']. simpl in *.
  rewrite (delete_Permutation population _ x Hx).
  by apply submseteq_skip.
Qed.

Lemma random_sample_length {A} (k : nat) : forall (population : list A) (r : rng),
  length (fst (random_sample k population r)) = Nat.min k (length population).
Proof.
  induction k as [|k IH]; intros population r; simpl; [done|].
  destruct population as [|y ys] eqn:Hp; [done|]. rewrite <- Hp.
  assert (Hlt : (hd 0%nat r mod length population < length population)%nat).
  { apply Nat.mod_upper_bound. subst population. simpl. lia. }
  destruct (lookup_lt_is_Some_2 population _ Hlt) as [x Hx]. rewrite Hx.
  specialize (IH (delete (hd 0%nat r mod length population)%nat population) (tl r)).
  destruct (random_sample k _ (tl r)) as [rest r']. simpl in *.
  rewrite IH, length_delete by eauto. subst population. simpl. lia.
Qed.

Lemma mock_sources_data_NoDup : NoDup mock_sources_data.
Proof.
  unfold mock_sources_data.
  repeat (apply NoDup_cons; split;
          [rewrite ?elem_of_cons, elem_of_nil; intros H;
           repeat (destruct H as [H|H]; [discriminate H|]); done|]).
  apply NoDup_nil_2.
Qed.

(** X11.  Whatever the generator draws, and however the call ends, a mock
    search whose arguments bind stores exactly two different sources of its
    table in [last_sources] and leaves [mock_sources] alone. *)
Theorem execute_mock_samples_two (kwargs : gmap string pyval)
    (query course_name lesson_number : pyval) (self : tool_fields) (r : rng) :
  bind_search_args kwargs = Ret (query, course_name, lesson_number) ->
  let self' := fst (snd (CourseSearchTool_execute_mock kwargs (self, r))) in
  mock_sources self' = mock_sources self ∧
  exists ss,
    last_sources self' = Some ss ∧ length ss = 2%nat ∧ NoDup ss ∧
    forall s, s ∈ ss -> s ∈ mock_sources_data.
Proof.
  intros Hb. unfold CourseSearchTool_execute_mock. rewrite Hb.
  pose proof (random_sample_submseteq (Nat.min 2 (length mock_sources_data))
                mock_sources_data r) as Hsub.
  pose proof (random_sample_length (Nat.min 2 (length mock_sources_data))
                mock_sources_data r) as Hlen.
  destruct (random_sample _ mock_sources_data r) as [sample r']. simpl in Hsub, Hlen.
  assert (Hgoal : mock_sources (set_last_sources self sample) = mock_sources self ∧
    exists ss, last_sources (set_last_sources self sample) = Some ss ∧
      length ss = 2%nat ∧ NoDup ss ∧ forall s, s ∈ ss -> s ∈ mock_sources_data).
  { split; [done|]. exists sample. split; [done|]. split; [exact Hlen|]. split.
    - apply submseteq_Permutation in Hsub as [extra Hperm].
      pose proof mock_sources_data_NoDup as Hnd. rewrite Hperm in Hnd.
      by apply NoDup_app in Hnd as [Hnd _].
    - intros s Hin. by eapply elem_of_submseteq. }
  destruct query as [|q|z]; simpl; try exact Hgoal.
  repeat case_match; simpl; exact Hgoal.
Qed.

Lemma execute_mock_samples_two_witness :
  let kwargs : gmap string pyval :=
    {[ "query" := PStr "What is lesson 5 about?"; "lesson_number" := PInt 5 ]} in
  let self := fields (CourseSearchTool demo_store) in
  CourseSearchTool_execute_mock kwargs (self, [3; 1]%nat)
    = (Ret mock_lesson5_found,
       (set_last_sources self
          [ {| text := "Anthropic API Documentation"; url := None |};
            {| text := "MCP Course - Lesson 5: Deployment";
               url := Some "https://example.com/mcp-lesson-5" |} ], [])) ∧
  exists ss,
    last_sources (fst (snd (CourseSearchTool_execute_mock kwargs (self, [3; 1]%nat))))
      = Some ss ∧ length ss = 2%nat.
Proof.
  intros kwargs self. split; [reflexivity|].
  destruct (execute_mock_samples_two kwargs (PStr "What is lesson 5 about?") PNone
              (PInt 5) self [3; 1]%nat eq_refl) as (_ & ss & Hss & Hlen & _).
  exists ss. by split.
Defined.

Lemma bind_search_args_raise (kwargs : gmap string pyval) :
  kwargs !! "query" = None ∨ ¬ dom kwargs ⊆ search_signature ->
  bind_search_args kwargs = Raise TypeError.
Proof.
  unfold bind_search_args. intros [Hq | Hdom].
  - rewrite Hq. by case_bool_decide.
  - by rewrite bool_decide_eq_false_2.
Qed.

(** X12.  A search without [query], or with a keyword the signature does
    not have, ends in a TypeError in either mode of the registry, and
    changes nothing: no source, no draw of the generator. *)
Theorem bad_arguments_raise (m : ToolManager) (N : string) (l : loc) (t : Tool)
    (store : VectorStore.VectorStore) (w : world) (kwargs : gmap string pyval) :
  odict_get (JStr N) (SearchTools.tools m) = Some l ->
  heap w !! l = Some t ->
  execute t = CourseSearchTool_execute store ->
  execute_mock t = Some CourseSearchTool_execute_mock ->
  kwargs !! "query" = None ∨ ¬ dom kwargs ⊆ search_signature ->
  execute_tool m N kwargs w = (Raise TypeError, w).
Proof.
  intros Hreg Hl Hex Hmock Hbad. unfold execute_tool.
  rewrite Hreg, Hl, Hmock, Hex.
  apply bind_search_args_raise in Hbad.
  destruct (SearchTools.mock_mode m); apply call_method_frame; try done.
  - unfold CourseSearchTool_execute_mock. by rewrite Hbad.
  - unfold CourseSearchTool_execute. by rewrite Hbad.
Qed.

(** The model asks for a search by [topic], which is no parameter. *)
Lemma bad_arguments_raise_witness :
  let kwargs : gmap string pyval :=
    {[ "query" := PStr "machine learning"; "topic" := PStr "basics" ]} in
  (¬ dom kwargs ⊆ search_signature) ∧
  execute_tool live_manager "search_course_content" kwargs searched_world
    = (Raise TypeError, searched_world) ∧
  execute_tool mock_manager "search_course_content" kwargs searched_world
    = (Raise TypeError, searched_world).
Proof.
  intros kwargs.
  assert (Hbad : ¬ dom kwargs ⊆ search_signature).
  { apply (bool_decide_eq_false_1 (dom kwargs ⊆ search_signature)). reflexivity. }
  split; [exact Hbad|]. split.
  - exact (bad_arguments_raise live_manager "search_course_content" 0%nat _ demo_store
             searched_world kwargs eq_refl eq_refl eq_refl eq_refl (or_intror Hbad)).
  - exact (bad_arguments_raise mock_manager "search_course_content" 0%nat _ demo_store
             searched_world kwargs eq_refl eq_refl eq_refl eq_refl (or_intror Hbad)).
Defined.

Lemma set_mock_sources_app (w : world) (pre post : list loc) :
  (forall l t, l ∈ pre -> heap w !! l = Some t -> mock_sources (fields t) = None) ->
  set_mock_sources w (pre ++ post) = set_mock_sources w post.
Proof.
  induction pre as [|l pre IH]; intros Hpre; [done|]. simpl.
  destruct (heap w !! l) as [t|] eqn:Hl.
  - rewrite (Hpre l t (list_elem_of_here _ _) Hl).
    apply IH. intros l' t' Hin. apply Hpre. by right.
  - apply IH. intros l' t' Hin. apply Hpre. by right.
Qed.

(** The effect of the mock search of the registry. *)
Lemma execute_mock_search_effect (m : ToolManager) (kwargs : gmap string pyval)
    (w : world) (pre post : list loc) (l : loc) (t : Tool) :
  odict_get (JStr "search_courses") (SearchTools.tools m) = None ->
  SearchTools.mock_mode m = true ->
  odict_values (SearchTools.tools m) = pre ++ l :: post ->
  (forall l' t', l' ∈ pre -> heap w !! l' = Some t' -> mock_sources (fields t') = None) ->
  heap w !! l = Some t ->
  is_Some (mock_sources (fields t)) ->
  execute_tool m "search_courses" kwargs w
    = (Ret ("Mock search completed for: "
            +:+ py_str (default (PStr "general query") (kwargs !! "query"))),
       set_tool w l (set_fields t
         (set_last_sources (fields t) (take 2 manager_mock_sources)))).
Proof.
  intros Hreg Hmode Hvals Hpre Hl [ms Hms]. unfold execute_tool.
  rewrite Hreg, Hmode. simpl. unfold _execute_mock_search.
  rewrite Hvals, set_mock_sources_app by done. simpl.
  by rewrite Hl, Hms.
Qed.



(** ** The simulation path *)

Lemma gstate_eta (s : gstate) : {| tool_world := tool_world s; calls := calls s |} = s.
Proof. by destruct s. Qed.

Lemma mock_response_state (self : AIGenerator) (query : string)
    (tool_manager : option ToolManager) (s : gstate) :
  snd (_generate_mock_response self query tool_manager s)
    = snd (simulate_tool_usage query (lower query) tool_manager s).
Proof.
  unfold _generate_mock_response.
  change (snd (match simulate_tool_usage query (lower query) tool_manager s with
               | (Ret a, s') =>
                   lift_outcome (match_patterns (lower query) query_patterns) s'
               | (Raise e, s') => (Raise e, s')
               end) = snd (simulate_tool_usage query (lower query) tool_manager s)).
  by destruct (simulate_tool_usage _ _ _ s) as [[[]|e] s'].
Qed.

(** X14.  In mock mode a query makes no model call.  It leaves the tools
    as they are when no registry is passed, when the query has none of the
    trigger keywords, or when the registry is not in mock mode and has no
    tool called [search_courses]. *)
Theorem simulation_is_local (self : AIGenerator) (query : string)
    (history : option string) (tools : option (list (list (string * jval))))
    (tool_manager : option ToolManager) (s : gstate) :
  AIGen.mock_mode self = true ->
  calls (snd (generate_response self query history tools tool_manager s)) = calls s ∧
  (tool_manager = None
   ∨ any_in trigger_keywords (lower query) = false
   ∨ (exists m, tool_manager = Some m ∧ SearchTools.mock_mode m = false ∧
        odict_get (JStr "search_courses") (SearchTools.tools m) = None) ->
   snd (generate_response self query history tools tool_manager s) = s).
Proof.
  intros Hmock. unfold generate_response. rewrite Hmock.
  split; [apply mock_response_calls|].
  rewrite mock_response_state. unfold simulate_tool_usage.
  intros [-> | [Hkw | (m & -> & Hmode & Hreg)]]; [done | | ].
  - rewrite Hkw. by destruct tool_manager.
  - destruct (any_in trigger_keywords (lower query)); [|done].
    unfold swallow, lift_tool, execute_tool. rewrite Hreg, Hmode. simpl.
    apply gstate_eta.
Qed.

(** A question about a course, put to a registry outside mock mode. *)
Lemma simulation_is_local_witness :
  any_in trigger_keywords (lower "Tell me about the MCP course") = true ∧
  generate_response mock_generator "Tell me about the MCP course" None None
      (Some live_manager) start
    = (Ret mock_default, start).
Proof.
  split; [reflexivity|].
  destruct (simulation_is_local mock_generator "Tell me about the MCP course" None None
              (Some live_manager) start eq_refl) as [_ Hsame].
  assert (Hs := Hsame (or_intror (or_intror
                 (ex_intro _ live_manager (conj eq_refl (conj eq_refl eq_refl)))))).
  destruct (generate_response mock_generator _ None None (Some live_manager) start)
    as [out s'] eqn:E. simpl in Hs. subst s'.
  f_equal. change out with (fst (out, start)). rewrite <- E. reflexivity.
Defined.

(** X15.  In mock mode, with a registry in mock mode whose first tool has
    [mock_sources] and which has no tool called [search_courses], a query
    with a trigger keyword leaves the first two mock sources of the
    registry to be read by [get_last_sources]. *)
Theorem simulation_cites (self : AIGenerator) (query : string)
    (history : option string) (tools : option (list (list (string * jval))))
    (m : ToolManager) (k : jval) (l : loc) (rest : list (jval * loc)) (t : Tool)
    (s : gstate) :
  AIGen.mock_mode self = true ->
  SearchTools.mock_mode m = true ->
  SearchTools.tools m = (k, l) :: rest ->
  odict_get (JStr "search_courses") (SearchTools.tools m) = None ->
  heap (tool_world s) !! l = Some t ->
  is_Some (mock_sources (fields t)) ->
  any_in trigger_keywords (lower query) = true ->
  get_last_sources m
      (tool_world (snd (generate_response self query history tools (Some m) s)))
    = take 2 manager_mock_sources.
Proof.
  intros Hmock Hmode Htools Hreg Hl Hms Hkw.
  unfold generate_response. rewrite Hmock, mock_response_state.
  unfold simulate_tool_usage. rewrite Hkw. unfold swallow, lift_tool.
  assert (Hvals : odict_values (SearchTools.tools m) = [] ++ l :: map snd rest)
    by (by rewrite Htools).
  rewrite (execute_mock_search_effect m _ (tool_world s) [] (map snd rest) l t
             Hreg Hmode Hvals) by (done || (intros ? ? Hin; by apply elem_of_nil in Hin)).
  simpl. unfold get_last_sources. rewrite Htools. simpl.
  by rewrite lookup_insert_eq.
Qed.

(** The registry in mock mode, asked about a course. *)
Lemma simulation_cites_witness :
  any_in trigger_keywords (lower "Tell me about the MCP course") = true ∧
  get_last_sources mock_manager start.(tool_world) = [] ∧
  get_last_sources mock_manager
      (tool_world (snd (generate_response mock_generator "Tell me about the MCP course"
                          None None (Some mock_manager) start)))
    = take 2 manager_mock_sources.
Proof.
  split; [reflexivity|]. split; [reflexivity|].
  refine (simulation_cites mock_generator "Tell me about the MCP course" None None
            mock_manager (JStr "search_course_content") 0%nat []
            (CourseSearchTool demo_store) start
            eq_refl eq_refl eq_refl eq_refl eq_refl _ eq_refl).
  by eexists.
Defined.

Lemma any_in_all_keywords (text : string) :
  any_in all_keywords text
    = any_in ["outline"; "structure"; "syllabus"; "overview"; "contents"] text
      || (any_in ["chatbot"; "chat bot"; "conversational"; "bot"] text
      || (any_in ["rag"; "retrieval"; "augmented"; "generation"] text
      || any_in ["lesson"; "module"; "chapter"; "section"] text)).
Proof.
  unfold all_keywords, query_patterns, any_in. cbn [map snd concat].
  by rewrite app_nil_r, !existsb_app.
Qed.

(** X16.  In mock mode the answer is the general description of the
    assistant exactly when none of the keywords of the table occurs in the
    lower-cased query. *)
Theorem fallback_iff_no_keyword (self : AIGenerator) (query : string)
    (history : option string) (tools : option (list (list (string * jval))))
    (tool_manager : option ToolManager) (s : gstate) :
  AIGen.mock_mode self = true ->
  fst (generate_response self query history tools tool_manager s) = Ret mock_default
  <-> any_in all_keywords (lower query) = false.
Proof.
  intros Hmock. unfold generate_response. rewrite Hmock.
  rewrite mock_response_text, match_patterns_first, any_in_all_keywords.
  unfold first_category, query_patterns, category_response.
  cbn [find fmap option_fmap option_map fst snd].
  destruct (any_in ["outline"; "structure"; "syllabus"; "overview"; "contents"] (lower query)).
  { simpl. destruct (contains "mcp" (lower query)); split; discriminate. }
  destruct (any_in ["chatbot"; "chat bot"; "conversational"; "bot"] (lower query)).
  { simpl. split; discriminate. }
  destruct (any_in ["rag"; "retrieval"; "augmented"; "generation"] (lower query)).
  { simpl. split; discriminate. }
  destruct (any_in ["lesson"; "module"; "chapter"; "section"] (lower query)).
  { simpl. split; discriminate. }
  by split.
Qed.

(** A greeting has no keyword; a word such as "storage" hides one. *)
Lemma fallback_iff_no_keyword_witness :
  fst (generate_response mock_generator "Hello, who are you?" None None None start)
    = Ret mock_default ∧
  any_in all_keywords (lower "How much storage do I need?") = true ∧
  fst (generate_response mock_generator "How much storage do I need?" None None None start)
    <> Ret mock_default.
Proof.
  split.
  - exact (proj2 (fallback_iff_no_keyword mock_generator "Hello, who are you?" None None
                    None start eq_refl) eq_refl).
  - split; [reflexivity|]. intros H.
    apply (fallback_iff_no_keyword mock_generator "How much storage do I need?" None None
             None start eq_refl) in H.
    discriminate H.
Defined.

(** ** The live path of the orchestrator *)

Lemma first_text_eq (blocks : list content_block) (s : gstate) :
  first_text blocks s = (first_text_outcome blocks, s).
Proof. by destruct blocks as [|[text|id name input] rest]. Qed.

(** [generate_response] outside mock mode, one step at a time. *)
Lemma generate_response_live (self : AIGenerator) (c : Anthropic) (query : string)
    (history : option string) (tools : option (list (list (string * jval))))
    (tool_manager : option ToolManager) (s : gstate) :
  AIGen.mock_mode self = false ->
  client self = Some c ->
  generate_response self query history tools tool_manager s
    = let p1 := first_call_params self query history tools in
      let s1 := logged s (tool_world s) [p1] in
      match messages_create c (length (calls s)) p1 with
      | Raise e => (Raise e, s1)
      | Ret response =>
          match tool_manager with
          | Some m =>
              if String.eqb (stop_reason response) "tool_use"
              then _handle_tool_execution self c response p1 m s1
              else (first_text_outcome (response_content response), s1)
          | None => (first_text_outcome (response_content response), s1)
          end
      end.
Proof.
  intros Hmock Hc. unfold generate_response. rewrite Hmock, Hc.
  fold (first_call_params self query history tools).
  rewrite bind_eq. unfold create, logged. cbv zeta.
  destruct (messages_create c _ _) as [response|e]; [|done].
  destruct tool_manager as [m|]; [|apply first_text_eq].
  destruct (String.eqb _ _); [done | apply first_text_eq].
Qed.

(** [_handle_tool_execution], one step at a time. *)
Lemma handle_tool_execution_eq (self : AIGenerator) (c : Anthropic) (resp : Message)
    (params : api_params) (m : ToolManager) (s : gstate) :
  _handle_tool_execution self c resp params m s
    = match run_tool_calls m (response_content resp) [] s with
      | (Raise e, s1) => (Raise e, s1)
      | (Ret rs, s1) =>
          let p2 := base_params self (follow_up_messages resp params rs) (system params) in
          (final_text (messages_create c (length (calls s1)) p2),
           logged s1 (tool_world s1) [p2])
      end.
Proof.
  unfold _handle_tool_execution. rewrite bind_eq.
  destruct (run_tool_calls _ _ _ s) as [[rs|e] s1]; [|done].
  rewrite bind_eq. unfold create, logged. cbv zeta.
  destruct (messages_create c _ _) as [final|e]; [apply first_text_eq | done].
Qed.

Lemma prefix_refl (a : string) : String.prefix a a = true.
Proof. induction a as [|x a IH]; simpl; [done|]. by destruct (ascii_dec x x). Qed.

Lemma prefix_append (a b : string) : String.prefix a (a +:+ b) = true.
Proof.
  induction a as [|x a IH]; [by destruct b|].
  change (String.prefix (String x a) (String x (a +:+ b)) = true). simpl.
  by destruct (ascii_dec x x).
Qed.

Lemma system_content_prefix (history : option string) :
  String.prefix SYSTEM_PROMPT (system_content history) = true.
Proof.
  unfold system_content. destruct (opt_truthy history);
    [apply prefix_append | apply prefix_refl].
Qed.

Lemma first_call_pinned (self : AIGenerator) (query : string) (history : option string)
    (tools : option (list (list (string * jval)))) :
  pinned self (first_call_params self query history tools).
Proof.
  unfold pinned, first_call_params.
  destruct tools as [[|d ds]|]; simpl; repeat split; apply system_content_prefix.
Qed.

(** X17.  Every model call of a query names the model of the generator,
    has temperature 0 and at most 800 output tokens, and a system content
    that begins with the system prompt. *)
Theorem model_calls_pinned (self : AIGenerator) (query : string)
    (history : option string) (tools : option (list (list (string * jval))))
    (tool_manager : option ToolManager) (s : gstate) :
  exists new,
    calls (snd (generate_response self query history tools tool_manager s))
      = calls s ++ new ∧
    Forall (pinned self) new.
Proof.
  destruct (AIGen.mock_mode self) eqn:Hmock.
  { exists []. unfold generate_response. rewrite Hmock.
    by rewrite mock_response_calls, app_nil_r. }
  destruct (client self) as [c|] eqn:Hc.
  2:{ exists []. unfold generate_response. rewrite Hmock, Hc. simpl.
      by rewrite app_nil_r. }
  rewrite (generate_response_live self c) by done. cbv zeta.
  pose proof (first_call_pinned self query history tools) as Hp1.
  set (p1 := first_call_params self query history tools) in *.
  assert (Hone : exists new, calls (logged s (tool_world s) [p1]) = calls s ++ new ∧
                             Forall (pinned self) new).
  { exists [p1]. split; [done|]. by constructor. }
  destruct (messages_create c _ p1) as [response|e]; [|exact Hone].
  destruct tool_manager as [m|]; [|exact Hone].
  destruct (String.eqb _ _); [|exact Hone].
  rewrite handle_tool_execution_eq.
  pose proof (run_tool_calls_calls m (response_content response) []
                (logged s (tool_world s) [p1])) as Hcalls.
  destruct (run_tool_calls _ _ _ _) as [[rs|e] s1]; simpl in Hcalls |- *.
  - exists [p1; base_params self (follow_up_messages response p1 rs) (system p1)].
    rewrite Hcalls, <- app_assoc. split; [done|].
    repeat constructor; apply Hp1.
  - exists [p1]. rewrite Hcalls. split; [done|]. by constructor.
Qed.

(** X18.  Outside mock mode the first model call carries the query as its
    only message.  Tool declarations go with it together with the
    automatic tool choice when the list of tools is not empty; an empty
    list, like no list, sends neither. *)
Theorem first_call_attaches_tools (self : AIGenerator) (c : Anthropic) (query : string)
    (history : option string) (tools : option (list (list (string * jval))))
    (tool_manager : option ToolManager) (s : gstate) :
  AIGen.mock_mode self = false ->
  client self = Some c ->
  exists p1 rest,
    calls (snd (generate_response self query history tools tool_manager s))
      = calls s ++ p1 :: rest ∧
    messages p1 = [ {| role := "user"; content := StrContent query |} ] ∧
    system p1 = system_content history ∧
    (api_tools p1, tool_choice p1)
      = match tools with
        | Some (d :: ds) => (Some (d :: ds), Some [("type", JStr "auto")])
        | _ => (None, None)
        end.
Proof.
  intros Hmock Hc. exists (first_call_params self query history tools).
  rewrite (generate_response_live self c) by done. cbv zeta.
  set (p1 := first_call_params self query history tools).
  assert (Hp1 : messages p1 = [ {| role := "user"; content := StrContent query |} ] ∧
                system p1 = system_content history ∧
                (api_tools p1, tool_choice p1)
                  = match tools with
                    | Some (d :: ds) => (Some (d :: ds), Some [("type", JStr "auto")])
                    | _ => (None, None)
                    end).
  { subst p1. unfold first_call_params. by destruct tools as [[|d ds]|]. }
  destruct (messages_create c _ p1) as [response|e]; [|by exists []].
  destruct tool_manager as [m|]; [|by exists []].
  destruct (String.eqb _ _); [|by exists []].
  rewrite handle_tool_execution_eq.
  pose proof (run_tool_calls_calls m (response_content response) []
                (logged s (tool_world s) [p1])) as Hcalls.
  destruct (run_tool_calls _ _ _ _) as [[rs|e] s1]; simpl in Hcalls |- *.
  - eexists [_]. rewrite Hcalls, <- app_assoc. by split.
  - exists []. rewrite Hcalls. by split.
Qed.

(** A query sent with an empty list of tools. *)
Lemma first_call_attaches_tools_witness :
  exists p1 rest,
    calls (snd (generate_response (generator_of (constant_model (text_reply "Hello.")))
                  "Hi" (Some "User: hello") (Some []) (Some live_manager) start))
      = p1 :: rest ∧
    api_tools p1 = None ∧ tool_choice p1 = None.
Proof.
  destruct (first_call_attaches_tools (generator_of (constant_model (text_reply "Hello.")))
              (constant_model (text_reply "Hello.")) "Hi" (Some "User: hello") (Some [])
              (Some live_manager) start eq_refl eq_refl)
    as (p1 & rest & Hcalls & _ & _ & Htools).
  exists p1, rest. split; [exact Hcalls|]. by injection Htools.
Defined.

(** X19.  Outside mock mode, when the first model call fails, or answers
    without the stop reason [tool_use], or no registry was passed, the
    query ends with that call: its exception, or the text of its first
    block - an IndexError when it has no block and an AttributeError when
    the first block is a tool call.  No tool runs and no second call is
    made. *)
Theorem single_call_answer (self : AIGenerator) (c : Anthropic) (query : string)
    (history : option string) (tools : option (list (list (string * jval))))
    (tool_manager : option ToolManager) (s : gstate) :
  AIGen.mock_mode self = false ->
  client self = Some c ->
  let p1 := first_call_params self query history tools in
  let reply := messages_create c (length (calls s)) p1 in
  (forall response, reply = Ret response ->
     tool_manager = None ∨ stop_reason response <> "tool_use") ->
  generate_response self query history tools tool_manager s
    = (final_text reply, logged s (tool_world s) [p1]).
Proof.
  intros Hmock Hc p1 reply Hno.
  rewrite (generate_response_live self c) by done. cbv zeta.
  fold p1. fold reply. destruct reply as [response|e]; [|done]. simpl.
  destruct (Hno response eq_refl) as [-> | Hstop]; [done|].
  apply String.eqb_neq in Hstop. rewrite Hstop. by destruct tool_manager.
Qed.

(** A model that asks for a tool although the caller passed no registry:
    the first block is the request, which has no text. *)
Lemma single_call_answer_witness :
  let self := generator_of (constant_model (tool_request [search_call "toolu_1" "rag"])) in
  generate_response self "What is RAG?" None (Some [course_search_definition]) None start
    = (Raise AttributeError,
       logged start demo_world
         [first_call_params self "What is RAG?" None (Some [course_search_definition])]).
Proof.
  intros self.
  refine (single_call_answer self (constant_model (tool_request [search_call "toolu_1" "rag"]))
            "What is RAG?" None (Some [course_search_definition]) None start
            eq_refl eq_refl _).
  intros response _. by left.
Defined.

(** X20.  A tool round that completes: when the first answer stops for
    tool use, a registry was passed and every requested tool call returns,
    the query makes exactly two model calls and ends with the second: its
    exception or the text of its first block.  The tools are left as the
    last tool call left them. *)
Theorem tool_round_answer (self : AIGenerator) (c : Anthropic) (query : string)
    (history : option string) (tools : option (list (list (string * jval))))
    (m : ToolManager) (s s2 : gstate) (response : Message) (rs : list tool_result) :
  AIGen.mock_mode self = false ->
  client self = Some c ->
  let p1 := first_call_params self query history tools in
  messages_create c (length (calls s)) p1 = Ret response ->
  stop_reason response = "tool_use" ->
  run_tool_calls m (response_content response) [] (logged s (tool_world s) [p1])
    = (Ret rs, s2) ->
  let p2 := base_params self (follow_up_messages response p1 rs) (system p1) in
  generate_response self query history tools (Some m) s
    = (final_text (messages_create c (S (length (calls s))) p2),
       logged s (tool_world s2) [p1; p2]).
Proof.
  intros Hmock Hc p1 Hreply Hstop Hrun p2.
  rewrite (generate_response_live self c) by done. cbv zeta.
  fold p1. rewrite Hreply, Hstop. simpl.
  rewrite handle_tool_execution_eq, Hrun. cbv zeta. fold p2.
  pose proof (run_tool_calls_calls m (response_content response) []
                (logged s (tool_world s) [p1])) as Hcalls.
  rewrite Hrun in Hcalls. simpl in Hcalls.
  unfold logged. rewrite Hcalls, <- app_assoc, length_app. simpl.
  by rewrite Nat.add_1_r.
Qed.

(** One search, then the final answer. *)
Lemma tool_round_answer_witness :
  let self := live_generator [search_call "toolu_1" "machine learning"] in
  let results :=
    [ {| result_type := "tool_result"; tool_use_id := "toolu_1";
         result_content := formatted_hits demo_store two_hits |} ] in
  generate_response self "What is in lesson 1?" None (Some [course_search_definition])
      (Some live_manager) start
    = (Ret "Final answer.",
       logged start searched_world
         [ first_params;
           base_params self
             [ {| role := "user"; content := StrContent "What is in lesson 1?" |};
               {| role := "assistant";
                  content := BlockContent [search_call "toolu_1" "machine learning"] |};
               {| role := "user"; content := ResultContent results |} ]
             (system_content None) ]).
Proof.
  intros self results.
  exact (tool_round_answer self (scripted_model [search_call "toolu_1" "machine learning"])
           "What is in lesson 1?" None (Some [course_search_definition]) live_manager start
           (logged start searched_world [first_params])
           (tool_request [search_call "toolu_1" "machine learning"]) results
           eq_refl eq_refl eq_refl eq_refl eq_refl).
Defined.





(** ** What a search and a failed registration leave alone *)

Lemma CourseSearchTool_execute_frame (store : VectorStore.VectorStore)
    (kwargs : gmap string pyval) (self : tool_fields) (r : rng) :
  snd (snd (CourseSearchTool_execute store kwargs (self, r))) = r ∧
  mock_sources (fst (snd (CourseSearchTool_execute store kwargs (self, r))))
    = mock_sources self.
Proof.
  unfold CourseSearchTool_execute.
  destruct (bind_search_args kwargs) as [[[query course_name] lesson_number]|e]; [|done].
  destruct (opt_truthy _); [done|]. by destruct (is_empty _).
Qed.

(** X22.  A search through a registry outside mock mode changes at most
    the sources of the tool it runs on: every other object, the random
    generator, and the declaration, the methods and the mock sources of the
    tool itself are as before. *)
Theorem search_changes_sources_only (m : ToolManager) (N : string) (l : loc) (t : Tool)
    (store : VectorStore.VectorStore) (w : world) (kwargs : gmap string pyval) :
  odict_get (JStr N) (SearchTools.tools m) = Some l ->
  SearchTools.mock_mode m = false ->
  heap w !! l = Some t ->
  execute t = CourseSearchTool_execute store ->
  sources_only w (snd (execute_tool m N kwargs w)) ∧
  forall l', l' <> l -> heap (snd (execute_tool m N kwargs w)) !! l' = heap w !! l'.
Proof.
  intros Hreg Hmode Hl Hex. unfold execute_tool. rewrite Hreg, Hl, Hmode.
  unfold call_method. rewrite Hex.
  destruct (CourseSearchTool_execute_frame store kwargs (fields t) (random w)) as [Hr Hm].
  destruct (CourseSearchTool_execute store kwargs (fields t, random w))
    as [res [self' r']]. simpl in *. subst r'.
  split; [split; [done|]|].
  - intros l'. cbn [heap]. destruct (decide (l' = l)) as [->|Hne].
    + rewrite Hl, lookup_insert_eq. eexists. split; [done|]. by repeat split.
    + rewrite lookup_insert_ne by done.
      destruct (heap w !! l') as [t'|]; [|done].
      exists t'. split; [done | apply same_but_sources_refl].
  - intros l' Hne. cbn [heap]. by rewrite lookup_insert_ne.
Qed.

(** A search with the weather tool in the same world. *)
Lemma search_changes_sources_only_witness :
  let kwargs : gmap string pyval := {[ "query" := PStr "machine learning" ]} in
  let w' := snd (execute_tool campus_manager "search_course_content" kwargs campus_world) in
  sources_at w' 0%nat = Some (hit_sources demo_store two_hits) ∧
  heap w' !! 2%nat = Some weather_tool ∧
  random w' = [3; 1]%nat.
Proof.
  intros kwargs w'. split; [reflexivity|].
  destruct (search_changes_sources_only campus_manager "search_course_content" 0%nat
              (CourseSearchTool demo_store) demo_store campus_world kwargs
              eq_refl eq_refl eq_refl eq_refl) as [[Hrandom _] Hother].
  split; [exact (Hother 2%nat ltac:(discriminate)) | exact Hrandom].
Defined.

(** X23.  A registration that raises, whatever the error, leaves the
    registry as it was. *)
Theorem failed_registration_keeps_registry (m m' : ToolManager) (l : loc) (w : world)
    (e : exn) :
  register_tool m l w = (Raise e, m') -> m' = m.
Proof.
  unfold register_tool.
  destruct (heap w !! l) as [t|]; [|by intros [= _ <-]].
  destruct (negb (jtruthy _)); [by intros [= _ <-]|].
  destruct (hashable _); [discriminate | by intros [= _ <-]].
Qed.

(** A name that is a list cannot be a key: the TypeError leaves the
    registry with its two tools. *)
Lemma failed_registration_keeps_registry_witness :
  register_tool campus_manager 7%nat
      {| heap := <[ 7%nat := misnamed_tool ]> (heap campus_world); random := [] |}
    = (Raise TypeError, campus_manager).
Proof.
  destruct (register_tool campus_manager 7%nat
              {| heap := <[ 7%nat := misnamed_tool ]> (heap campus_world); random := [] |})
    as [out m'] eqn:E.
  assert (Hout : out = Raise TypeError).
  { change out with (fst (out, m')). rewrite <- E. reflexivity. }
  subst out.
  by rewrite (failed_registration_keeps_registry campus_manager m' 7%nat _ TypeError E).
Defined.
